(** * BlackRoad Meet: the room registry of [src/meet_server.py]

    A shallow embedding of the [MeetServer] class: the two dataclasses
    ([Room], [Participant]), the in-memory dictionaries [rooms] and
    [participants], the SQLite store (tables [rooms] and [participants]) and
    the operations [create_room], [join_room], [leave_room], [toggle_media],
    [end_room], [get_room], [get_user_history] and [room_stats].

    Conventions of the embedding.
    - A Python [dict] is an association list in insertion order: lookup finds
      the first binding of a key, assignment replaces the value in place or
      appends a new binding.
    - A [datetime] is an integer number of microseconds (the resolution of
      Python's [datetime]); [datetime.now()] and [uuid.uuid4()] read the
      environment, so every operation that calls them takes the value read as
      an extra argument.
    - An operation returns an [outcome] (a value or a raised exception)
      together with the server after the call: an exception leaves in place
      whatever the method had already mutated.
    - A SQL statement is a function on the rows of its table.  Binding an
      integer that does not fit a signed 64-bit SQLite INTEGER raises
      [OverflowError] before the statement runs.
    - A [float] is a binary64 number, given by a mantissa and an exponent; a
      division rounds the exact quotient to the nearest one, ties to even. *)

From Stdlib Require Import String ZArith List Bool Lia Permutation Sorted.
From Stdlib Require Import DecimalString.
From Stdlib Require Floats.SpecFloat.
Import ListNotations.
Local Open Scope string_scope.
Local Open Scope list_scope.
Local Open Scope Z_scope.

(** ** Python values *)

Definition datetime := Z.

Inductive exn : Type :=
| TypeError
| KeyError
| IntegrityError
| OverflowError.

Inductive outcome (A : Type) : Type :=
| Ret (a : A)
| Raise (e : exn).
Arguments Ret {A} a.
Arguments Raise {A} e.

(** The [status] field only ever holds one of two string literals. *)
Inductive Status : Type :=
| active
| ended.

Definition Status_eqb (a b : Status) : bool :=
  match a, b with
  | active, active | ended, ended => true
  | _, _ => false
  end.

(** ** Dictionaries *)

Definition dict (V : Type) := list (string * V).

Fixpoint dict_get {V : Type} (k : string) (d : dict V) : option V :=
  match d with
  | [] => None
  | (k', v) :: d' => if String.eqb k k' then Some v else dict_get k d'
  end.

(** [d[k] = v] *)
Fixpoint dict_set {V : Type} (k : string) (v : V) (d : dict V) : dict V :=
  match d with
  | [] => [(k, v)]
  | (k', v') :: d' =>
      if String.eqb k k' then (k', v) :: d' else (k', v') :: dict_set k v d'
  end.

Definition dict_values {V : Type} (d : dict V) : list V := map snd d.

(** [x in l] and [l.remove(x)] on a list of strings. *)
Definition list_in (x : string) (l : list string) : bool :=
  existsb (String.eqb x) l.

Fixpoint list_remove (x : string) (l : list string) : list string :=
  match l with
  | [] => []
  | y :: l' => if String.eqb x y then l' else y :: list_remove x l'
  end.

(** The keys of a dictionary after [d[k] = v]. *)
Definition keys_add (k : string) (ks : list string) : list string :=
  if list_in k ks then ks else ks ++ [k].

(** [l[:n]]: a negative bound counts from the end of the list. *)
Definition slice_to {A : Type} (n : Z) (l : list A) : list A :=
  if 0 <=? n then firstn (Z.to_nat n) l
  else firstn (Z.to_nat (Z.of_nat (length l) + n)) l.

(** ** The dataclasses *)

Module Room.
Record t : Type := mk {
  id : string;
  name : string;
  host : string;
  participants : list string;
  max_size : Z;
  status : Status;
  created_at : datetime;
  ended_at : option datetime;
  recording_url : string
}.

(** [room.participants.append(user)] *)
Definition append (room : t) (user : string) : t :=
  mk (id room) (name room) (host room) (participants room ++ [user])
     (max_size room) (status room) (created_at room) (ended_at room)
     (recording_url room).

(** [room.participants.remove(user)] *)
Definition remove (room : t) (user : string) : t :=
  mk (id room) (name room) (host room) (list_remove user (participants room))
     (max_size room) (status room) (created_at room) (ended_at room)
     (recording_url room).

(** [room.status = 'ended'; room.ended_at = now; room.recording_url = url] *)
Definition finish (room : t) (now : datetime) (url : string) : t :=
  mk (id room) (name room) (host room) (participants room)
     (max_size room) ended (created_at room) (Some now) url.
End Room.

Module Participant.
Record t : Type := mk {
  id : string;
  room_id : string;
  user : string;
  joined_at : datetime;
  left_at : option datetime;
  camera_on : bool;
  mic_on : bool
}.

(** The body of the loop of [toggle_media]: each flag is assigned only when
    its argument is not [None]. *)
Definition toggle (p : t) (camera mic : option bool) : t :=
  mk (id p) (room_id p) (user p) (joined_at p) (left_at p)
     (match camera with Some c => c | None => camera_on p end)
     (match mic with Some m => m | None => mic_on p end).

(** [Participant] is declared with a bare [@dataclass]: [eq] defaults to
    true and [frozen] to false, and for that combination the decorator sets
    [__hash__] to [None].  Hashing an instance therefore raises
    [TypeError: unhashable type: 'Participant']. *)
Definition hash (p : t) : outcome Z := Raise TypeError.
End Participant.

(** A [set] of participants, in its iteration order.  [set.add] hashes its
    argument before anything else. *)
Definition pset := list Participant.t.

Definition set_add (p : Participant.t) (s : pset) : outcome pset :=
  match Participant.hash p with
  | Raise e => Raise e
  | Ret _ => Ret (s ++ [p])
  end.

(** ** The SQLite store *)

Record RoomRow : Type := mkRoomRow {
  rr_id : string;
  rr_name : string;
  rr_host : string;
  rr_max_size : Z;
  rr_status : Status;
  rr_created_at : datetime;
  rr_ended_at : option datetime;
  rr_recording_url : string
}.

Record ParticipantRow : Type := mkParticipantRow {
  pr_id : string;
  pr_room_id : string;
  pr_user : string;
  pr_joined_at : datetime;
  pr_left_at : option datetime;
  pr_camera_on : Z;
  pr_mic_on : Z
}.

Record DB : Type := mkDB {
  t_rooms : list RoomRow;
  t_participants : list ParticipantRow
}.

Definition empty_db : DB := mkDB [] [].

(** An integer that [sqlite3] can bind as an INTEGER. *)
Definition in_int64 (z : Z) : bool :=
  (- 2 ^ 63 <=? z) && (z <? 2 ^ 63).

(** [INSERT INTO rooms ...]: the parameters are bound first, and [max_size]
    is the only integer among them; then [id] is the primary key. *)
Definition insert_room (row : RoomRow) (d : DB) : outcome DB :=
  if negb (in_int64 (rr_max_size row))
  then Raise OverflowError
  else if existsb (fun r => String.eqb (rr_id r) (rr_id row)) (t_rooms d)
  then Raise IntegrityError
  else Ret (mkDB (t_rooms d ++ [row]) (t_participants d)).

(** [INSERT INTO participants ...]: [id] is the primary key. *)
Definition insert_participant (row : ParticipantRow) (d : DB) : outcome DB :=
  if existsb (fun r => String.eqb (pr_id r) (pr_id row)) (t_participants d)
  then Raise IntegrityError
  else Ret (mkDB (t_rooms d) (t_participants d ++ [row])).

(** [WHERE room_id = ? AND user = ? AND left_at IS NULL] *)
Definition open_session (room_id user : string) (r : ParticipantRow) : bool :=
  String.eqb (pr_room_id r) room_id && String.eqb (pr_user r) user &&
  match pr_left_at r with None => true | Some _ => false end.

Definition stamp_left (now : datetime) (r : ParticipantRow) : ParticipantRow :=
  mkParticipantRow (pr_id r) (pr_room_id r) (pr_user r) (pr_joined_at r)
                   (Some now) (pr_camera_on r) (pr_mic_on r).

(** [UPDATE participants SET left_at = ? WHERE room_id = ? AND user = ?
    AND left_at IS NULL] *)
Definition update_left_at (now : datetime) (room_id user : string) (d : DB) : DB :=
  mkDB (t_rooms d)
       (map (fun r => if open_session room_id user r then stamp_left now r else r)
            (t_participants d)).

(** [UPDATE rooms SET status = 'ended', ended_at = ?, recording_url = ?
    WHERE id = ?] *)
Definition update_room_ended (now : datetime) (url room_id : string) (d : DB) : DB :=
  mkDB (map (fun r => if String.eqb (rr_id r) room_id
                      then mkRoomRow (rr_id r) (rr_name r) (rr_host r)
                                     (rr_max_size r) ended (rr_created_at r)
                                     (Some now) url
                      else r)
            (t_rooms d))
       (t_participants d).

(** [SELECT COUNT( * ) FROM participants WHERE room_id = ?] *)
Definition count_participants (room_id : string) (d : DB) : Z :=
  Z.of_nat (length (filter (fun r => String.eqb (pr_room_id r) room_id)
                           (t_participants d))).

(** ** The server *)

Record MeetServer : Type := mkServer {
  rooms : dict Room.t;
  participants : dict pset;
  db : DB
}.

(** [MeetServer(db_path)] on a database file that holds [d]: the tables are
    created only if they do not exist, and nothing is read back. *)
Definition init (d : DB) : MeetServer := mkServer [] [] d.

Definition join_url (room_id : string) : string :=
  String.append "https://meet.blackroad.io/r/" room_id.

(** [uuid8] is [str(uuid.uuid4())[:8]], [now] is [datetime.now()]. *)
Definition create_room (self : MeetServer) (name host : string) (max_size : Z)
    (uuid8 : string) (now : datetime) : outcome (string * string) * MeetServer :=
  let room_id := uuid8 in
  let room := Room.mk room_id name host [] max_size active now None "" in
  let self1 := mkServer (dict_set room_id room (rooms self))
                        (dict_set room_id [] (participants self))
                        (db self) in
  match insert_room (mkRoomRow room_id name host max_size active now None "")
                    (db self1) with
  | Raise e => (Raise e, self1)
  | Ret db' =>
      (Ret (room_id, join_url room_id),
       mkServer (rooms self1) (participants self1) db')
  end.

Definition join_room (self : MeetServer) (room_id user : string)
    (uuid8 : string) (now : datetime) : outcome bool * MeetServer :=
  match dict_get room_id (rooms self) with
  | None => (Ret false, self)
  | Some room =>
      if Z.of_nat (length (Room.participants room)) >=? Room.max_size room
      then (Ret false, self)
      else
        let participant_id := uuid8 in
        let participant :=
          Participant.mk participant_id room_id user now None true true in
        (* room.participants.append(user) *)
        let self1 := mkServer (dict_set room_id (Room.append room user) (rooms self))
                              (participants self) (db self) in
        (* self.participants[room_id].add(participant) *)
        match dict_get room_id (participants self1) with
        | None => (Raise KeyError, self1)
        | Some ps =>
            match set_add participant ps with
            | Raise e => (Raise e, self1)
            | Ret ps' =>
                let self2 := mkServer (rooms self1)
                                      (dict_set room_id ps' (participants self1))
                                      (db self1) in
                match insert_participant
                        (mkParticipantRow participant_id room_id user now None 1 1)
                        (db self2) with
                | Raise e => (Raise e, self2)
                | Ret db' =>
                    (Ret true, mkServer (rooms self2) (participants self2) db')
                end
            end
        end
  end.

Definition leave_room (self : MeetServer) (room_id user : string)
    (now : datetime) : outcome bool * MeetServer :=
  match dict_get room_id (rooms self) with
  | None => (Ret false, self)
  | Some room =>
      if negb (list_in user (Room.participants room))
      then (Ret false, self)
      else
        (Ret true,
         mkServer (dict_set room_id (Room.remove room user) (rooms self))
                  (participants self)
                  (update_left_at now room_id user (db self)))
  end.

(** The loop of [toggle_media]: the first participant of the iteration whose
    user matches is updated in place and ends the loop. *)
Fixpoint toggle_first (user : string) (camera mic : option bool) (ps : pset)
  : option pset :=
  match ps with
  | [] => None
  | p :: ps' =>
      if String.eqb (Participant.user p) user
      then Some (Participant.toggle p camera mic :: ps')
      else match toggle_first user camera mic ps' with
           | Some ps'' => Some (p :: ps'')
           | None => None
           end
  end.

Definition toggle_media (self : MeetServer) (room_id user : string)
    (camera mic : option bool) : outcome bool * MeetServer :=
  match dict_get room_id (rooms self) with
  | None => (Ret false, self)
  | Some _ =>
      (* self.participants.get(room_id, set()) *)
      match dict_get room_id (participants self) with
      | None => (Ret false, self)
      | Some ps =>
          match toggle_first user camera mic ps with
          | Some ps' =>
              (Ret true,
               mkServer (rooms self) (dict_set room_id ps' (participants self))
                        (db self))
          | None => (Ret false, self)
          end
      end
  end.

Definition end_room (self : MeetServer) (room_id recording_url : string)
    (now : datetime) : outcome bool * MeetServer :=
  match dict_get room_id (rooms self) with
  | None => (Ret false, self)
  | Some room =>
      (Ret true,
       mkServer (dict_set room_id (Room.finish room now recording_url) (rooms self))
                (participants self)
                (update_room_ended now recording_url room_id (db self)))
  end.

(** ** Queries *)

(** The integer nearest to [n / d], for [d > 0]; a tie goes to the even one. *)
Definition round_ne (n d : Z) : Z :=
  let q := n / d in
  let r := n mod d in
  if 2 * r <? d then q
  else if d <? 2 * r then q + 1
  else if Z.even q then q else q + 1.

(** The binary64 quotient of the float [m * 2 ^ ex] by the integer [b], for
    [m > 0] and [b > 0], as a mantissa and an exponent: the exponent is the
    one that puts the exact quotient between [2 ^ 52] and [2 ^ 53], and the
    mantissa is that scaled quotient rounded.  Neither overflow nor
    subnormal numbers occur for the differences of two [datetime]s. *)
Definition fl_div (m ex b : Z) : Z * Z :=
  let sh0 := 53 + Z.log2 b - Z.log2 m in
  let num sh := if 0 <=? sh then m * 2 ^ sh else m in
  let den sh := if 0 <=? sh then b else b * 2 ^ (- sh) in
  let sh := if num sh0 / den sh0 <? 2 ^ 53 then sh0 else sh0 - 1 in
  (round_ne (num sh) (den sh), ex - sh).

(** [int(td.total_seconds() / 60)] for a [timedelta] of [us > 0]
    microseconds: [total_seconds] is the true division of the integer [us]
    by [10 ** 6], the result is divided by 60, and [int] drops the
    fraction. *)
Definition float_minutes (us : Z) : Z :=
  let (m1, e1) := fl_div us 0 1000000 in
  let (m2, e2) := fl_div m1 e1 60 in
  if 0 <=? e2 then m2 * 2 ^ e2 else m2 / 2 ^ (- e2).

(** [int((ended_at - created_at).total_seconds() / 60)]: the difference is a
    whole number of microseconds, both divisions are symmetric in the sign,
    and [int] truncates towards zero. *)
Definition minutes_between (created ended_ : datetime) : Z :=
  Z.sgn (ended_ - created) * float_minutes (Z.abs (ended_ - created)).

(** The same computation with the binary64 division of the Standard Library,
    to compare with. *)
Definition specfloat_minutes (us : positive) : option Z :=
  let div := SpecFloat.SFdiv 53 1024 in
  match div (div (SpecFloat.S754_finite false us 0)
                 (SpecFloat.S754_finite false 1000000 0))
            (SpecFloat.S754_finite false 60 0) with
  | SpecFloat.S754_finite _ m e =>
      Some (if 0 <=? e then Zpos m * 2 ^ e else Zpos m / 2 ^ (- e))
  | _ => None
  end.

(** The dictionary returned by [get_room].  The ISO-8601 strings of the
    source are kept as the timestamps they print. *)
Record Snapshot : Type := mkSnapshot {
  s_id : string;
  s_name : string;
  s_host : string;
  s_participants : list string;
  s_max_size : Z;
  s_status : Status;
  s_created_at : datetime;
  s_ended_at : option datetime;
  s_recording_url : string;
  s_duration_minutes : option Z
}.

Definition snapshot (room : Room.t) : Snapshot :=
  mkSnapshot (Room.id room) (Room.name room) (Room.host room)
             (Room.participants room) (Room.max_size room) (Room.status room)
             (Room.created_at room) (Room.ended_at room) (Room.recording_url room)
             (match Room.ended_at room with
              | Some e => Some (minutes_between (Room.created_at room) e)
              | None => None
              end).

Definition get_room (self : MeetServer) (room_id : string) : option Snapshot :=
  match dict_get room_id (rooms self) with
  | None => None
  | Some room => Some (snapshot room)
  end.

(** [sorted(history, key=lambda x: x['created_at'], reverse=True)]: a stable
    sort, so snapshots with equal keys keep the order they had.  The key of
    the source is the ISO-8601 text of a naive [datetime], whose
    lexicographic order is the order of the timestamps. *)
Fixpoint insert_desc (x : Snapshot) (l : list Snapshot) : list Snapshot :=
  match l with
  | [] => [x]
  | y :: l' =>
      if s_created_at y <=? s_created_at x then x :: y :: l'
      else y :: insert_desc x l'
  end.

Fixpoint sorted_desc (l : list Snapshot) : list Snapshot :=
  match l with
  | [] => []
  | x :: l' => insert_desc x (sorted_desc l')
  end.

(** The order of a list sorted by creation time, descending. *)
Definition newer_first (a b : Snapshot) : Prop := s_created_at b <= s_created_at a.

(** Evaluating the key on an element that is [None] raises [TypeError]. *)
Fixpoint all_some {A : Type} (l : list (option A)) : option (list A) :=
  match l with
  | [] => Some []
  | None :: _ => None
  | Some a :: l' =>
      match all_some l' with
      | Some r => Some (a :: r)
      | None => None
      end
  end.

Definition in_history (user : string) (room : Room.t) : bool :=
  list_in user (Room.participants room) && Status_eqb (Room.status room) ended.

Definition get_user_history (self : MeetServer) (user : string) (n : Z)
  : outcome (list Snapshot) :=
  let history :=
    map (fun room => get_room self (Room.id room))
        (filter (in_history user) (dict_values (rooms self))) in
  match all_some history with
  | None => Raise TypeError
  | Some h => Ret (slice_to n (sorted_desc h))
  end.

Record Stats : Type := mkStats {
  peak_participants : Z;
  duration_min : Z;
  join_events : Z
}.

Definition room_stats (self : MeetServer) (room_id : string) : option Stats :=
  match dict_get room_id (rooms self) with
  | None => None
  | Some room =>
      Some (mkStats (Z.of_nat (length (Room.participants room)))
                    (match Room.ended_at room with
                     | Some e => minutes_between (Room.created_at room) e
                     | None => 0
                     end)
                    (count_participants room_id (db self)))
  end.

(** ** Sequences of calls *)

Inductive call : Type :=
| CreateRoom (name host : string) (max_size : Z) (uuid8 : string) (now : datetime)
| JoinRoom (room_id user uuid8 : string) (now : datetime)
| LeaveRoom (room_id user : string) (now : datetime)
| ToggleMedia (room_id user : string) (camera mic : option bool)
| EndRoom (room_id recording_url : string) (now : datetime).

Inductive value : Type :=
| VBool (b : bool)
| VCreated (room_id url : string).

Definition lift {A : Type} (f : A -> value) (r : outcome A * MeetServer)
  : outcome value * MeetServer :=
  match r with
  | (Ret a, s) => (Ret (f a), s)
  | (Raise e, s) => (Raise e, s)
  end.

Definition step (self : MeetServer) (c : call) : outcome value * MeetServer :=
  match c with
  | CreateRoom name host max_size uuid8 now =>
      lift (fun p => VCreated (fst p) (snd p))
           (create_room self name host max_size uuid8 now)
  | JoinRoom room_id user uuid8 now =>
      lift VBool (join_room self room_id user uuid8 now)
  | LeaveRoom room_id user now => lift VBool (leave_room self room_id user now)
  | ToggleMedia room_id user camera mic =>
      lift VBool (toggle_media self room_id user camera mic)
  | EndRoom room_id url now => lift VBool (end_room self room_id url now)
  end.

(** The server after a sequence of calls; a caller that catches an exception
    goes on with the server as the failed call left it. *)
Fixpoint run (cs : list call) (self : MeetServer) : MeetServer :=
  match cs with
  | [] => self
  | c :: cs' => run cs' (snd (step self c))
  end.

Definition reachable (s : MeetServer) : Prop :=
  exists d cs, s = run cs (init d).

(** How many of the [join_room] calls of a sequence, on a given room,
    returned [True]. *)
Fixpoint successful_joins (room_id : string) (cs : list call) (self : MeetServer)
  : Z :=
  match cs with
  | [] => 0
  | c :: cs' =>
      (match c, fst (step self c) with
       | JoinRoom rid _ _ _, Ret (VBool true) =>
           if String.eqb rid room_id then 1 else 0
       | _, _ => 0
       end) + successful_joins room_id cs' (snd (step self c))
  end.

(** ** Invariants of the reachable servers *)

(** Every room is bound to its own identifier, no identifier is bound twice,
    and the two dictionaries have the same keys. *)
Definition wf (s : MeetServer) : Prop :=
  Forall (fun kr => fst kr = Room.id (snd kr)) (rooms s) /\
  NoDup (map fst (rooms s)) /\
  map fst (participants s) = map fst (rooms s).

(** No participant object is held in memory. *)
Definition no_sessions (s : MeetServer) : Prop :=
  Forall (fun kp => snd kp = @nil Participant.t) (participants s).

Definition room_inv (room : Room.t) : Prop :=
  Z.of_nat (length (Room.participants room)) <= Z.max 0 (Room.max_size room) /\
  (Room.ended_at room <> None <-> Room.status room = ended).

Definition inv (s : MeetServer) : Prop :=
  wf s /\ no_sessions s /\ Forall (fun kr => room_inv (snd kr)) (rooms s).

(** ** The live meetings *)

(** [self.rooms[rid].status == 'active'], for a key of the dictionary. *)
Definition is_active (self : MeetServer) (rid : string) : bool :=
  match dict_get rid (rooms self) with
  | Some room => Status_eqb (Room.status room) active
  | None => false
  end.

(** [[self.get_room(rid) for rid in self.rooms if ...]] *)
Definition get_active_rooms (self : MeetServer) : list (option Snapshot) :=
  map (get_room self) (filter (is_active self) (map fst (rooms self))).

(** ** Calls and rooms *)

(** The room a call is about. *)
Definition call_room (c : call) : string :=
  match c with
  | CreateRoom _ _ _ uuid8 _ => uuid8
  | JoinRoom room_id _ _ _ => room_id
  | LeaveRoom room_id _ _ => room_id
  | ToggleMedia room_id _ _ _ => room_id
  | EndRoom room_id _ _ => room_id
  end.

(** A [create_room] whose fresh identifier is one already in use. *)
Definition recreates (room_id : string) (c : call) : bool :=
  match c with
  | CreateRoom _ _ _ uuid8 _ => String.eqb uuid8 room_id
  | _ => false
  end.

(** What can happen to a row of the [participants] table: nothing, or a
    leave time where there was none. *)
Definition session_evolves (r r' : ParticipantRow) : Prop :=
  pr_id r' = pr_id r /\ pr_room_id r' = pr_room_id r /\ pr_user r' = pr_user r /\
  pr_joined_at r' = pr_joined_at r /\ pr_camera_on r' = pr_camera_on r /\
  pr_mic_on r' = pr_mic_on r /\
  (pr_left_at r' = pr_left_at r \/ (pr_left_at r = None /\ pr_left_at r' <> None)).

(** Every room held in memory whose capacity SQLite can store has a row in
    the store. *)
Definition stored (s : MeetServer) : Prop :=
  forall k room,
    In (k, room) (rooms s) ->
    in_int64 (Room.max_size room) = true ->
    In k (map rr_id (t_rooms (db s))).

(** ** The command line *)

(** Exceptions of the script itself, and those that come out of the server. *)
Inductive cli_exn : Type :=
| IndexError
| ValueError
| Server (e : exn).

(** How the process ends: [sys.exit(code)] or the end of the script, or an
    exception nobody catches. *)
Inductive cli_exit : Type :=
| Exit (code : Z)
| Uncaught (e : cli_exn).

(** The lines printed, the way the process ended, and the database file
    afterwards. *)
Record cli_run : Type := mkRun {
  stdout : list string;
  exit_status : cli_exit;
  store : DB
}.

(** [l.index(x)] *)
Fixpoint list_index (x : string) (l : list string) : option nat :=
  match l with
  | [] => None
  | y :: l' =>
      if String.eqb y x then Some O
      else match list_index x l' with
           | Some i => Some (S i)
           | None => None
           end
  end.

(** [str] of an integer, as an f-string prints it. *)
Definition str (z : Z) : string := NilZero.string_of_int (Z.to_int z).

Definition room_line (room : Snapshot) : string :=
  String.append "["
    (String.append (s_id room)
       (String.append "] "
          (String.append (s_name room)
             (String.append " (host: "
                (String.append (s_host room)
                   (String.append ", participants: "
                      (String.append (str (Z.of_nat (length (s_participants room))))
                         (String.append "/"
                            (String.append (str (s_max_size room)) ")"))))))))).

(** The loop of the [rooms] command; subscripting [None] raises. *)
Fixpoint print_rooms (active : list (option Snapshot))
  : list string * option cli_exn :=
  match active with
  | [] => ([], None)
  | None :: _ => ([], Some (Server TypeError))
  | Some room :: rest =>
      let (out, e) := print_rooms rest in (room_line room :: out, e)
  end.

Section CLI.

(** The builtin [int] on a string: [None] stands for [ValueError]. *)
Variable int : string -> option Z.

(** [max_size = 50], replaced by the argument after the first ['--max']. *)
Definition parse_max_size (argv : list string) : cli_exn + Z :=
  if list_in "--max" argv then
    match list_index "--max" argv with
    | None => inl ValueError
    | Some i =>
        match nth_error argv (i + 1) with
        | None => inl IndexError
        | Some text =>
            match int text with
            | None => inl ValueError
            | Some n => inr n
            end
        end
    end
  else inr 50.

(** The script run as [__main__] on [sys.argv = argv], with the database file
    holding [d]; [uuid8] and [now] are what the one server call of the run
    reads from the environment. *)
Definition main (argv : list string) (d : DB) (uuid8 : string) (now : datetime)
  : cli_run :=
  let server := init d in
  if (length argv <? 2)%nat
  then mkRun ["Usage: python meet_server.py <command> [args]"] (Exit 1) d
  else
    match nth_error argv 1 with
    | None => mkRun [] (Uncaught IndexError) d
    | Some cmd =>
        if String.eqb cmd "create" then
          match nth_error argv 2 with
          | None => mkRun [] (Uncaught IndexError) d
          | Some name =>
              match nth_error argv 3 with
              | None => mkRun [] (Uncaught IndexError) d
              | Some host =>
                  match parse_max_size argv with
                  | inl e => mkRun [] (Uncaught e) d
                  | inr max_size =>
                      match create_room server name host max_size uuid8 now with
                      | (Raise e, server') =>
                          mkRun [] (Uncaught (Server e)) (db server')
                      | (Ret (room_id, url), server') =>
                          mkRun [String.append "Room created: " room_id;
                                 String.append "Join URL: " url]
                                (Exit 0) (db server')
                      end
                  end
              end
          end
        else if String.eqb cmd "rooms" then
          match print_rooms (get_active_rooms server) with
          | (out, Some e) => mkRun out (Uncaught e) d
          | (out, None) => mkRun out (Exit 0) d
          end
        else if String.eqb cmd "join" then
          match nth_error argv 2 with
          | None => mkRun [] (Uncaught IndexError) d
          | Some room_id =>
              match nth_error argv 3 with
              | None => mkRun [] (Uncaught IndexError) d
              | Some user =>
                  match join_room server room_id user uuid8 now with
                  | (Raise e, server') =>
                      mkRun [] (Uncaught (Server e)) (db server')
                  | (Ret true, server') =>
                      mkRun [String.append "User "
                               (String.append user
                                  (String.append " joined room " room_id))]
                            (Exit 0) (db server')
                  | (Ret false, server') =>
                      mkRun [String.append "Failed to join room " room_id]
                            (Exit 0) (db server')
                  end
              end
          end
        else mkRun [] (Exit 0) d
    end.

End CLI.

(** * Properties *)

(** ** Dictionaries and lists *)

Section Dict.
Context {V : Type}.
Implicit Types (d : dict V) (k : string) (v : V).

Lemma dict_get_set_same k v d : dict_get k (dict_set k v d) = Some v.
Proof.
  induction d as [|[k' v'] d IH]; simpl.
  - now rewrite String.eqb_refl.
  - destruct (String.eqb k k') eqn:E; simpl; rewrite E; auto.
Qed.

Lemma dict_get_set_other k k' v d :
  k' <> k -> dict_get k' (dict_set k v d) = dict_get k' d.
Proof.
  intros Hne. induction d as [|[k0 v0] d IH]; simpl.
  - destruct (String.eqb_spec k' k); congruence.
  - destruct (String.eqb_spec k k0) as [->|]; simpl.
    + destruct (String.eqb_spec k' k0); congruence.
    + now rewrite IH.
Qed.

Lemma dict_get_None k d : dict_get k d = None <-> ~ In k (map fst d).
Proof.
  induction d as [|[k' v'] d IH]; simpl.
  - tauto.
  - destruct (String.eqb_spec k k') as [->|Hne].
    + split; [discriminate | tauto].
    + rewrite IH. intuition congruence.
Qed.

Lemma dict_get_In k v d : dict_get k d = Some v -> In (k, v) d.
Proof.
  induction d as [|[k' v'] d IH]; simpl; [discriminate|].
  destruct (String.eqb_spec k k') as [->|]; intros H.
  - injection H as ->. now left.
  - right. auto.
Qed.

Lemma In_dict_get k v d : NoDup (map fst d) -> In (k, v) d -> dict_get k d = Some v.
Proof.
  induction d as [|[k' v'] d IH]; simpl; [tauto|].
  intros Hnd [Heq|Hin].
  - injection Heq as -> ->. now rewrite String.eqb_refl.
  - inversion Hnd as [|? ? Hnot Hnd']; subst.
    destruct (String.eqb_spec k k') as [->|].
    + exfalso. apply Hnot. apply (in_map fst) in Hin. exact Hin.
    + auto.
Qed.

Lemma Forall_dict_set (P : string * V -> Prop) k v d :
  Forall P d -> P (k, v) -> Forall P (dict_set k v d).
Proof.
  intros Hd Hv. induction Hd as [|[k0 v0] d H0 Hd IH]; simpl.
  - constructor; auto.
  - destruct (String.eqb_spec k k0) as [<-|]; constructor; auto.
Qed.

Lemma dict_set_keys k v d : map fst (dict_set k v d) = keys_add k (map fst d).
Proof.
  unfold keys_add. induction d as [|[k0 v0] d IH]; simpl; auto.
  destruct (String.eqb k k0); simpl; auto.
  rewrite IH. now destruct (list_in k (map fst d)).
Qed.

Lemma dict_set_keys_known k v v' d :
  dict_get k d = Some v -> map fst (dict_set k v' d) = map fst d.
Proof.
  induction d as [|[k0 v0] d IH]; simpl; [discriminate|].
  destruct (String.eqb k k0); simpl; auto.
  intros H. now rewrite IH.
Qed.

Lemma Forall_dict_get (P : string * V -> Prop) k v d :
  Forall P d -> dict_get k d = Some v -> P (k, v).
Proof.
  intros Hd Hg. apply dict_get_In in Hg.
  rewrite Forall_forall in Hd. auto.
Qed.
End Dict.

Lemma list_in_In x l : list_in x l = true <-> In x l.
Proof.
  unfold list_in. rewrite existsb_exists. split.
  - intros (y & Hy & E). apply String.eqb_eq in E. now subst.
  - intros H. exists x. split; auto. apply String.eqb_refl.
Qed.

Lemma NoDup_keys_add k ks : NoDup ks -> NoDup (keys_add k ks).
Proof.
  unfold keys_add. intros H. destruct (list_in k ks) eqn:E; auto.
  apply NoDup_app; auto.
  - repeat constructor. simpl. tauto.
  - intros x Hx [<-|[]]. apply list_in_In in Hx. congruence.
Qed.

Lemma length_list_remove x l : (length (list_remove x l) <= length l)%nat.
Proof.
  induction l as [|y l IH]; simpl; auto.
  destruct (String.eqb x y); simpl; lia.
Qed.

(** ** What [join_room] does *)

(** On a known room below its capacity the method appends the user to the
    room's list and then fails in [set.add]; nothing after that line runs. *)
Lemma join_room_eq s room_id user uuid8 now :
  join_room s room_id user uuid8 now =
  match dict_get room_id (rooms s) with
  | None => (Ret false, s)
  | Some room =>
      if Z.of_nat (length (Room.participants room)) >=? Room.max_size room
      then (Ret false, s)
      else
        let s1 := mkServer (dict_set room_id (Room.append room user) (rooms s))
                           (participants s) (db s) in
        match dict_get room_id (participants s) with
        | None => (Raise KeyError, s1)
        | Some _ => (Raise TypeError, s1)
        end
  end.
Proof.
  unfold join_room.
  destruct (dict_get room_id (rooms s)) as [room|]; [|reflexivity].
  destruct (_ >=? _); [reflexivity|]. simpl.
  now destruct (dict_get room_id (participants s)).
Qed.

Lemma join_room_never_true s room_id user uuid8 now :
  fst (join_room s room_id user uuid8 now) <> Ret true.
Proof.
  rewrite join_room_eq.
  destruct (dict_get room_id (rooms s)) as [room|]; simpl; [|discriminate].
  destruct (_ >=? _); simpl; [discriminate|].
  destruct (dict_get room_id (participants s)); simpl; discriminate.
Qed.

(** ** The invariants hold in every reachable server *)

Lemma inv_init d : inv (init d).
Proof.
  unfold inv, wf, no_sessions, init; simpl.
  repeat split; auto; constructor.
Qed.

Lemma inv_set_room s room_id room room' ps d :
  inv s ->
  dict_get room_id (rooms s) = Some room ->
  Room.id room' = Room.id room ->
  room_inv room' ->
  ps = participants s ->
  inv (mkServer (dict_set room_id room' (rooms s)) ps d).
Proof.
  intros ((Hid & Hnd & Hk) & Hns & Hri) Hg Hi Hr ->.
  pose proof (Forall_dict_get _ _ _ _ Hid Hg) as Hrid. simpl in Hrid.
  unfold inv, wf, no_sessions; simpl.
  rewrite (dict_set_keys_known _ _ _ _ Hg).
  repeat split; auto.
  - apply Forall_dict_set; auto. simpl. congruence.
  - apply Forall_dict_set; auto.
Qed.

Lemma inv_step s c : inv s -> inv (snd (step s c)).
Proof.
  intros Hinv. destruct c; simpl.
  - (* create_room *)
    assert (Hnew : inv (mkServer
              (dict_set uuid8 (Room.mk uuid8 name host [] max_size active now None "")
                        (rooms s))
              (dict_set uuid8 [] (participants s)) (db s))).
    { destruct Hinv as ((Hid & Hnd & Hk) & Hns & Hri).
      unfold inv, wf, no_sessions; simpl.
      rewrite !dict_set_keys, Hk.
      repeat split.
      - apply Forall_dict_set; auto.
      - now apply NoDup_keys_add.
      - apply Forall_dict_set; auto.
      - apply Forall_dict_set; auto. split; simpl; [lia|].
        split; [congruence | discriminate]. }
    unfold create_room. destruct (insert_room _ _); simpl; auto.
  - (* join_room *)
    rewrite join_room_eq.
    destruct (dict_get room_id (rooms s)) as [room|] eqn:Hg; simpl; auto.
    destruct (Z.of_nat _ >=? _) eqn:Hfull; simpl; auto.
    assert (Hnew : inv (mkServer (dict_set room_id (Room.append room user) (rooms s))
                                 (participants s) (db s))).
    { apply inv_set_room with (room := room); auto.
      destruct Hinv as (_ & _ & Hri).
      destruct (Forall_dict_get _ _ _ _ Hri Hg) as [Hlen Hend]. simpl in *.
      split; simpl; auto.
      rewrite length_app; simpl. lia. }
    destruct (dict_get room_id (participants s)); simpl; auto.
  - (* leave_room *)
    unfold leave_room.
    destruct (dict_get room_id (rooms s)) as [room|] eqn:Hg; simpl; auto.
    destruct (negb _); simpl; auto.
    apply inv_set_room with (room := room); auto.
    destruct Hinv as (_ & _ & Hri).
    destruct (Forall_dict_get _ _ _ _ Hri Hg) as [Hlen Hend]. simpl in *.
    split; simpl; auto.
    pose proof (length_list_remove user (Room.participants room)). lia.
  - (* toggle_media *)
    unfold toggle_media.
    destruct (dict_get room_id (rooms s)) as [room|] eqn:Hg; simpl; auto.
    destruct (dict_get room_id (participants s)) as [ps|] eqn:Hp; simpl; auto.
    destruct Hinv as (Hwf & Hns & Hri).
    pose proof (Forall_dict_get _ _ _ _ Hns Hp) as Hnil. simpl in Hnil. subst ps.
    simpl. unfold inv. auto.
  - (* end_room *)
    unfold end_room.
    destruct (dict_get room_id (rooms s)) as [room|] eqn:Hg; simpl; auto.
    apply inv_set_room with (room := room); auto.
    destruct Hinv as (_ & _ & Hri).
    destruct (Forall_dict_get _ _ _ _ Hri Hg) as [Hlen Hend]. simpl in *.
    split; simpl; auto.
    split; [reflexivity | discriminate].
Qed.

Lemma inv_run cs : forall s, inv s -> inv (run cs s).
Proof.
  induction cs as [|c cs IH]; simpl; auto using inv_step.
Qed.

Lemma reachable_inv s : reachable s -> inv s.
Proof.
  intros (d & cs & ->). apply inv_run, inv_init.
Qed.

Lemma run_app cs1 cs2 s : run (cs1 ++ cs2) s = run cs2 (run cs1 s).
Proof.
  revert s. induction cs1 as [|c cs1 IH]; simpl; auto.
Qed.

Lemma reachable_step s c : reachable s -> reachable (snd (step s c)).
Proof.
  intros (d & cs & ->). exists d, (cs ++ [c]). now rewrite run_app.
Qed.

Lemma join_room_unknown s room_id user uuid8 now :
  dict_get room_id (rooms s) = None ->
  join_room s room_id user uuid8 now = (Ret false, s).
Proof.
  intros H. rewrite join_room_eq. now rewrite H.
Qed.

Lemma join_room_full s room_id room user uuid8 now :
  dict_get room_id (rooms s) = Some room ->
  Room.max_size room <= Z.of_nat (length (Room.participants room)) ->
  join_room s room_id user uuid8 now = (Ret false, s).
Proof.
  intros H Hfull. rewrite join_room_eq, H.
  destruct (Z.geb_spec (Z.of_nat (length (Room.participants room)))
                       (Room.max_size room)); [reflexivity | lia].
Qed.

(** Whatever the status of the room: the method never reads it. *)
Lemma join_room_below_capacity s room_id room user uuid8 now :
  reachable s ->
  dict_get room_id (rooms s) = Some room ->
  Z.of_nat (length (Room.participants room)) < Room.max_size room ->
  join_room s room_id user uuid8 now =
  (Raise TypeError,
   mkServer (dict_set room_id (Room.append room user) (rooms s))
            (participants s) (db s)).
Proof.
  intros Hr H Hlt. rewrite join_room_eq, H.
  destruct (Z.geb_spec (Z.of_nat (length (Room.participants room)))
                       (Room.max_size room)); [lia|].
  destruct (reachable_inv s Hr) as ((_ & _ & Hk) & _ & _).
  destruct (dict_get room_id (participants s)) eqn:Hp; [reflexivity|].
  apply dict_get_None in Hp. rewrite Hk in Hp.
  apply dict_get_In, (in_map fst) in H. contradiction.
Qed.

(** ** C1: joining up to the capacity *)

(** C1.  The example of the specification, [create_room("Standup", "alice",
    2)] followed by joins of bob, carol and dave.  The claim has the first two
    joins return [True]; the method raises [TypeError] in both, after it has
    put the user on the room's list.  The third join, and a join on an
    unknown room, return [False] as the claim says. *)
Theorem join_room_capacity_example :
  let s0 := snd (create_room (init empty_db) "Standup" "alice" 2 "1a2b3c4d" 1000) in
  let r1 := join_room s0 "1a2b3c4d" "bob" "p0000001" 2000 in
  let r2 := join_room (snd r1) "1a2b3c4d" "carol" "p0000002" 3000 in
  let r3 := join_room (snd r2) "1a2b3c4d" "dave" "p0000003" 4000 in
  fst r1 = Raise TypeError /\
  fst r2 = Raise TypeError /\
  fst r3 = Ret false /\
  fst (join_room s0 "deadbeef" "bob" "p0000004" 5000) = Ret false.
Proof.
  repeat split; reflexivity.
Qed.

(** ** C8: the same user joining twice *)

(** C8.  Two joins of bob on a room of capacity 5.  The claim has both return
    [True] and the second create a second session record; both raise
    [TypeError], and no session is recorded in memory or in the store.  The
    room's list does end with two entries for bob. *)
Theorem join_room_twice_example :
  let s0 := snd (create_room (init empty_db) "Standup" "alice" 5 "1a2b3c4d" 1000) in
  let r1 := join_room s0 "1a2b3c4d" "bob" "p0000001" 2000 in
  let r2 := join_room (snd r1) "1a2b3c4d" "bob" "p0000002" 3000 in
  fst r1 = Raise TypeError /\
  fst r2 = Raise TypeError /\
  option_map Room.participants (dict_get "1a2b3c4d" (rooms (snd r2)))
    = Some ["bob"; "bob"] /\
  dict_get "1a2b3c4d" (participants (snd r2)) = Some [] /\
  t_participants (db (snd r2)) = [].
Proof.
  repeat split; reflexivity.
Qed.

(** ** C9: joining an ended room *)

(** C9.  A join on a room that has been ended and is below its capacity.  The
    status is not looked at and bob is put on the list of the ended room, as
    the claim says; but the call raises [TypeError] where the claim has it
    return [True], and no session record is created. *)
Theorem join_ended_room_example :
  let s0 := snd (create_room (init empty_db) "Standup" "alice" 2 "1a2b3c4d" 1000) in
  let s1 := snd (end_room s0 "1a2b3c4d" "" 2000) in
  let r := join_room s1 "1a2b3c4d" "bob" "p0000001" 3000 in
  option_map Room.status (dict_get "1a2b3c4d" (rooms s1)) = Some ended /\
  fst r = Raise TypeError /\
  option_map Room.participants (dict_get "1a2b3c4d" (rooms (snd r))) = Some ["bob"] /\
  dict_get "1a2b3c4d" (participants (snd r)) = Some [] /\
  t_participants (db (snd r)) = [].
Proof.
  repeat split; reflexivity.
Qed.

(** ** C2: the invariants of a room *)

(** C2, as amended.  In every reachable server, every room, active or ended,
    has at most [max (max_size, 0)] entries on its list, hence at most
    [max_size] when that is not negative; and [ended_at] is set exactly when
    the status is [ended]. *)
Theorem reachable_room_invariant s k room :
  reachable s ->
  In (k, room) (rooms s) ->
  Z.of_nat (length (Room.participants room)) <= Z.max 0 (Room.max_size room) /\
  (Room.ended_at room <> None <-> Room.status room = ended).
Proof.
  intros Hr Hin. destruct (reachable_inv s Hr) as (_ & _ & Hri).
  rewrite Forall_forall in Hri. exact (Hri _ Hin).
Qed.

Lemma reachable_room_invariant_witness :
  let s := run [CreateRoom "Standup" "alice" 2 "1a2b3c4d" 1000;
                JoinRoom "1a2b3c4d" "bob" "p0000001" 2000;
                EndRoom "1a2b3c4d" "" 3000] (init empty_db) in
  let room := Room.mk "1a2b3c4d" "Standup" "alice" ["bob"] 2 ended 1000 (Some 3000) "" in
  reachable s /\ In ("1a2b3c4d", room) (rooms s) /\
  Z.of_nat (length (Room.participants room)) <= Z.max 0 (Room.max_size room) /\
  (Room.ended_at room <> None <-> Room.status room = ended).
Proof.
  assert (Hr : reachable
                 (run [CreateRoom "Standup" "alice" 2 "1a2b3c4d" 1000;
                       JoinRoom "1a2b3c4d" "bob" "p0000001" 2000;
                       EndRoom "1a2b3c4d" "" 3000] (init empty_db))).
  { exists empty_db. eexists. reflexivity. }
  assert (Hin : In ("1a2b3c4d",
                    Room.mk "1a2b3c4d" "Standup" "alice" ["bob"] 2 ended 1000
                            (Some 3000) "")
                   (rooms (run [CreateRoom "Standup" "alice" 2 "1a2b3c4d" 1000;
                                JoinRoom "1a2b3c4d" "bob" "p0000001" 2000;
                                EndRoom "1a2b3c4d" "" 3000] (init empty_db)))).
  { left. reflexivity. }
  split; [exact Hr|]. split; [exact Hin|].
  exact (reachable_room_invariant _ _ _ Hr Hin).
Defined.

(** The claim as it is written fails on a room created with a negative
    capacity: it is active and its empty list is longer than [max_size]. *)
Lemma negative_capacity_counterexample :
  let s := run [CreateRoom "Standup" "alice" (-1) "1a2b3c4d" 1000] (init empty_db) in
  let room := Room.mk "1a2b3c4d" "Standup" "alice" [] (-1) active 1000 None "" in
  reachable s /\ In ("1a2b3c4d", room) (rooms s) /\
  Room.status room = active /\
  ~ Z.of_nat (length (Room.participants room)) <= Room.max_size room.
Proof.
  repeat split.
  - exists empty_db. eexists. reflexivity.
  - left. reflexivity.
  - simpl. lia.
Qed.

(** ** C10: a call that returns [False] changes nothing *)

(** C10.  When [join_room], [leave_room], [toggle_media] or [end_room]
    returns [False], the server after the call (both dictionaries and the
    store) is the server before it. *)
Theorem failure_leaves_server_unchanged s :
  (forall room_id user uuid8 now,
      fst (join_room s room_id user uuid8 now) = Ret false ->
      snd (join_room s room_id user uuid8 now) = s) /\
  (forall room_id user now,
      fst (leave_room s room_id user now) = Ret false ->
      snd (leave_room s room_id user now) = s) /\
  (forall room_id user camera mic,
      fst (toggle_media s room_id user camera mic) = Ret false ->
      snd (toggle_media s room_id user camera mic) = s) /\
  (forall room_id url now,
      fst (end_room s room_id url now) = Ret false ->
      snd (end_room s room_id url now) = s).
Proof.
  repeat split.
  - intros room_id user uuid8 now. rewrite join_room_eq.
    destruct (dict_get room_id (rooms s)); simpl; auto.
    destruct (_ >=? _); simpl; auto.
    destruct (dict_get room_id (participants s)); simpl; discriminate.
  - intros room_id user now. unfold leave_room.
    destruct (dict_get room_id (rooms s)); simpl; auto.
    destruct (negb _); simpl; auto. discriminate.
  - intros room_id user camera mic. unfold toggle_media.
    destruct (dict_get room_id (rooms s)); simpl; auto.
    destruct (dict_get room_id (participants s)); simpl; auto.
    destruct (toggle_first _ _ _ _); simpl; auto. discriminate.
  - intros room_id url now. unfold end_room.
    destruct (dict_get room_id (rooms s)); simpl; auto. discriminate.
Qed.

Lemma failure_leaves_server_unchanged_witness :
  let s := run [CreateRoom "Standup" "alice" 1 "1a2b3c4d" 1000;
                JoinRoom "1a2b3c4d" "bob" "p0000001" 2000] (init empty_db) in
  (fst (join_room s "1a2b3c4d" "carol" "p0000002" 3000) = Ret false /\
   snd (join_room s "1a2b3c4d" "carol" "p0000002" 3000) = s) /\
  (fst (leave_room s "1a2b3c4d" "carol" 3000) = Ret false /\
   snd (leave_room s "1a2b3c4d" "carol" 3000) = s) /\
  (fst (toggle_media s "1a2b3c4d" "bob" (Some false) None) = Ret false /\
   snd (toggle_media s "1a2b3c4d" "bob" (Some false) None) = s) /\
  (fst (end_room s "deadbeef" "" 3000) = Ret false /\
   snd (end_room s "deadbeef" "" 3000) = s).
Proof.
  pose proof (failure_leaves_server_unchanged
                (run [CreateRoom "Standup" "alice" 1 "1a2b3c4d" 1000;
                      JoinRoom "1a2b3c4d" "bob" "p0000001" 2000] (init empty_db)))
    as (Hj & Hl & Ht & He).
  cbv zeta.
  split; [split; [reflexivity | apply Hj; reflexivity]|].
  split; [split; [reflexivity | apply Hl; reflexivity]|].
  split; [split; [reflexivity | apply Ht; reflexivity]|].
  split; [reflexivity | apply He; reflexivity].
Defined.

(** ** C5: leaving a room *)

Lemma list_remove_first x l :
  In x l ->
  exists pre post, l = pre ++ x :: post /\ ~ In x pre /\ list_remove x l = pre ++ post.
Proof.
  induction l as [|y l IH]; simpl; [tauto|].
  destruct (String.eqb_spec x y) as [<-|Hne]; intros Hin.
  - exists [], l. simpl. tauto.
  - destruct Hin as [->|Hin]; [congruence|].
    destruct (IH Hin) as (pre & post & -> & Hpre & Hrm).
    exists (y :: pre), post. simpl. rewrite Hrm.
    repeat split; auto. intros [->|?]; auto.
Qed.

(** C5.  [leave_room] returns [False], and changes nothing, when the room is
    unknown or the user is not on its list.  Otherwise it returns [True]; the
    first occurrence of the user is taken off the list and the later ones
    stay, nothing else in memory changes, and in the store exactly the
    sessions of that room and user that have no leave time get the time of
    the call. *)
Theorem leave_room_spec s room_id user now :
  (dict_get room_id (rooms s) = None ->
   leave_room s room_id user now = (Ret false, s)) /\
  (forall room,
      dict_get room_id (rooms s) = Some room ->
      ~ In user (Room.participants room) ->
      leave_room s room_id user now = (Ret false, s)) /\
  (forall room,
      dict_get room_id (rooms s) = Some room ->
      In user (Room.participants room) ->
      exists pre post s',
        leave_room s room_id user now = (Ret true, s') /\
        Room.participants room = pre ++ user :: post /\
        ~ In user pre /\
        rooms s' =
          dict_set room_id
            (Room.mk (Room.id room) (Room.name room) (Room.host room)
                     (pre ++ post) (Room.max_size room) (Room.status room)
                     (Room.created_at room) (Room.ended_at room)
                     (Room.recording_url room))
            (rooms s) /\
        participants s' = participants s /\
        t_rooms (db s') = t_rooms (db s) /\
        Forall2
          (fun r r' =>
             (pr_room_id r = room_id /\ pr_user r = user /\ pr_left_at r = None ->
              r' = mkParticipantRow (pr_id r) (pr_room_id r) (pr_user r)
                                    (pr_joined_at r) (Some now)
                                    (pr_camera_on r) (pr_mic_on r)) /\
             (~ (pr_room_id r = room_id /\ pr_user r = user /\ pr_left_at r = None) ->
              r' = r))
          (t_participants (db s)) (t_participants (db s'))).
Proof.
  unfold leave_room. repeat split.
  - intros ->. reflexivity.
  - intros room -> Hnot.
    destruct (list_in user (Room.participants room)) eqn:E; [|reflexivity].
    apply list_in_In in E. contradiction.
  - intros room -> Hin.
    destruct (list_remove_first _ _ Hin) as (pre & post & Hl & Hpre & Hrm).
    exists pre, post. eexists.
    apply list_in_In in Hin as E. rewrite E. simpl.
    split; [reflexivity|]. simpl.
    split; [exact Hl|]. split; [exact Hpre|].
    split; [unfold Room.remove; now rewrite Hrm|].
    split; [reflexivity|]. split; [reflexivity|].
    induction (t_participants (db s)) as [|r rows IH]; simpl; constructor; auto.
    unfold open_session.
    destruct (String.eqb_spec (pr_room_id r) room_id) as [Hr|Hr];
      destruct (String.eqb_spec (pr_user r) user) as [Hu|Hu];
      destruct (pr_left_at r) eqn:Hleft; simpl;
      split; try tauto; try (intros (? & ? & ?); congruence).
Qed.

Lemma leave_room_spec_witness :
  let room := Room.mk "1a2b3c4d" "Standup" "alice" ["carol"; "bob"; "dan"; "bob"]
                      5 active 1000 None "" in
  let s := run [CreateRoom "Standup" "alice" 5 "1a2b3c4d" 1000;
                JoinRoom "1a2b3c4d" "carol" "p0000004" 1100;
                JoinRoom "1a2b3c4d" "bob" "p0000005" 1200;
                JoinRoom "1a2b3c4d" "dan" "p0000006" 1300;
                JoinRoom "1a2b3c4d" "bob" "p0000007" 1400]
               (init (mkDB []
                  [mkParticipantRow "p0000001" "1a2b3c4d" "bob" 200 (Some 250) 1 1;
                   mkParticipantRow "p0000002" "1a2b3c4d" "bob" 300 None 1 1;
                   mkParticipantRow "p0000003" "1a2b3c4d" "carol" 310 None 1 1])) in
  (dict_get "deadbeef" (rooms s) = None /\
   leave_room s "deadbeef" "bob" 4000 = (Ret false, s)) /\
  (dict_get "1a2b3c4d" (rooms s) = Some room /\
   ~ In "erin" (Room.participants room) /\
   leave_room s "1a2b3c4d" "erin" 4000 = (Ret false, s)) /\
  (In "bob" (Room.participants room) /\
   exists pre post s',
     leave_room s "1a2b3c4d" "bob" 4000 = (Ret true, s') /\
     Room.participants room = pre ++ "bob" :: post /\
     ~ In "bob" pre).
Proof.
  intros room s.
  assert (Herin : ~ In "erin" (Room.participants room)).
  { simpl. intros [H|[H|[H|[H|[]]]]]; discriminate. }
  assert (Hbob : In "bob" (Room.participants room)).
  { simpl. auto. }
  split; [split; [reflexivity | apply leave_room_spec; reflexivity]|].
  split; [split; [reflexivity | split; [exact Herin|]]|].
  - exact (proj1 (proj2 (leave_room_spec s "1a2b3c4d" "erin" 4000)) room eq_refl Herin).
  - split; [exact Hbob|].
    destruct (proj2 (proj2 (leave_room_spec s "1a2b3c4d" "bob" 4000)) room eq_refl Hbob)
      as (pre & post & s' & Hl & Hp & Hn & _).
    exists pre, post, s'. auto.
Defined.

(** ** C4: toggling camera and microphone *)






(** ** C7: the duration reported by [get_room] *)


Lemma round_ne_bounds n d :
  0 < d ->
  n / d <= round_ne n d <= n / d + 1 /\
  2 * d * round_ne n d <= 2 * n + d.
Proof.
  intros Hd. unfold round_ne.
  pose proof (Z.div_mod n d ltac:(lia)) as Hn.
  pose proof (Z.mod_pos_bound n d Hd) as Hr.
  destruct (Z.ltb_spec (2 * (n mod d)) d);
    [|destruct (Z.ltb_spec d (2 * (n mod d))); [|destruct (Z.even (n / d))]];
    split; nia.
Qed.

Lemma div_lt_inv a b q : 0 < b -> a / b < q -> a < b * q.
Proof.
  intros Hb H. destruct (Z.lt_ge_cases a (b * q)) as [|Hge]; auto.
  apply (Z.div_le_lower_bound a b q Hb) in Hge. lia.
Qed.

Lemma div_ge_inv a b q : 0 < b -> q <= a / b -> b * q <= a.
Proof.
  intros Hb H. pose proof (Z.mul_div_le a b Hb). nia.
Qed.

Lemma fl_div_seconds u :
  0 < u < 17179869184000000 ->
  exists sh,
    19 <= sh /\
    fl_div u 0 1000000 = (round_ne (u * 2 ^ sh) 1000000, - sh) /\
    2 ^ 52 * 1000000 <= u * 2 ^ sh < 2 ^ 53 * 1000000.
Proof.
  intros [Hpos Hlt].
  destruct (Z.log2_spec u Hpos) as [Hlo Hhi].
  pose proof (Z.log2_nonneg u) as Hl0.
  assert (Hl : Z.log2 u <= 53).
  { assert (Z.log2 u < 54); [|lia]. apply Z.log2_lt_pow2; auto.
    change (2 ^ 54) with 18014398509481984. lia. }
  set (l := Z.log2 u) in *.
  assert (Hx : 2 ^ 72 <= u * 2 ^ (72 - l) < 2 ^ 73).
  { replace (2 ^ 72) with (2 ^ l * 2 ^ (72 - l))
      by (rewrite <- Z.pow_add_r by lia; f_equal; lia).
    replace (2 ^ 73) with (2 ^ (l + 1) * 2 ^ (72 - l))
      by (rewrite <- Z.pow_add_r by lia; f_equal; lia).
    replace (Z.succ l) with (l + 1) in Hhi by lia.
    assert (0 < 2 ^ (72 - l)) by (apply Z.pow_pos_nonneg; lia).
    nia. }
  unfold fl_div. fold l. change (Z.log2 1000000) with 19.
  replace (53 + 19 - l) with (72 - l) by lia.
  assert (E0 : (0 <=? 72 - l) = true) by (apply Z.leb_le; lia).
  rewrite E0.
  destruct (Z.ltb_spec (u * 2 ^ (72 - l) / 1000000) (2 ^ 53)) as [Hq|Hq].
  - exists (72 - l). rewrite E0. split; [lia|]. split; [f_equal; lia|].
    apply div_lt_inv in Hq; [|lia].
    change (2 ^ 72) with 4722366482869645213696 in Hx.
    change (2 ^ 52) with 4503599627370496.
    lia.
  - apply div_ge_inv in Hq; [|lia].
    assert (Hl' : l <= 52).
    { destruct (Z.eq_dec l 53) as [E|]; [|lia]. exfalso.
      rewrite E in Hq. change (72 - 53) with 19 in Hq.
      change (2 ^ 19) with 524288 in Hq.
      change (2 ^ 53) with 9007199254740992 in Hq. lia. }
    exists (72 - l - 1).
    assert (E1 : (0 <=? 72 - l - 1) = true) by (apply Z.leb_le; lia).
    rewrite E1. split; [lia|]. split; [f_equal; lia|].
    assert (Hd : 2 ^ (72 - l) = 2 * 2 ^ (72 - l - 1)).
    { replace (72 - l) with (1 + (72 - l - 1)) at 1 by lia.
      rewrite Z.pow_add_r by lia. reflexivity. }
    rewrite Hd in Hx, Hq.
    change (2 ^ 73) with 9444732965739290427392 in Hx.
    change (2 ^ 53) with 9007199254740992 in *.
    change (2 ^ 52) with 4503599627370496.
    lia.
Qed.

Lemma fl_div_sixty m ex :
  2 ^ 52 <= m <= 2 ^ 53 ->
  exists sh,
    5 <= sh <= 6 /\ fl_div m ex 60 = (round_ne (m * 2 ^ sh) 60, ex - sh).
Proof.
  intros [Hlo Hhi].
  destruct (Z.eq_dec m (2 ^ 53)) as [->|Hne].
  - exists 5. split; [lia|]. reflexivity.
  - assert (Hl : Z.log2 m = 52).
    { apply Z.log2_unique; [lia|]. change (52 + 1) with 53. lia. }
    unfold fl_div. rewrite Hl. change (53 + Z.log2 60 - 52) with 6.
    change (0 <=? 6) with true. cbv beta iota zeta.
    destruct (_ <? _).
    + exists 6. split; [lia|]. reflexivity.
    + exists 5. split; [lia|]. reflexivity.
Qed.

Lemma float_minutes_floor u :
  0 < u < 17179869184000000 ->
  float_minutes u = u / 60000000.
Proof.
  intros Hu.
  destruct (fl_div_seconds u Hu) as (sh1 & Hsh1 & E1 & Hn1).
  set (P := 2 ^ sh1) in *.
  assert (HP : 524288 <= P).
  { change 524288 with (2 ^ 19). apply Z.pow_le_mono_r; lia. }
  destruct (round_ne_bounds (u * P) 1000000 ltac:(lia)) as [[Hf1 _] Hh1].
  set (mx := round_ne (u * P) 1000000) in *.
  assert (Hmx : 2 ^ 52 <= mx <= 2 ^ 53).
  { split.
    - transitivity (u * P / 1000000); auto. apply Z.div_le_lower_bound; lia.
    - assert (u * P / 1000000 < 2 ^ 53) by (apply Z.div_lt_upper_bound; lia).
      destruct (round_ne_bounds (u * P) 1000000 ltac:(lia)) as [[_ Hf2] _].
      fold mx in Hf2. lia. }
  destruct (fl_div_sixty mx (- sh1) Hmx) as (sh2 & Hsh2 & E2).
  set (Q := 2 ^ sh2) in *.
  assert (HQ : 32 <= Q).
  { change 32 with (2 ^ 5). apply Z.pow_le_mono_r; lia. }
  destruct (round_ne_bounds (mx * Q) 60 ltac:(lia)) as [[Hf3 _] Hh3].
  set (my := round_ne (mx * Q) 60) in *.
  unfold float_minutes. rewrite E1, E2.
  assert (En : (0 <=? - sh1 - sh2) = false) by (apply Z.leb_gt; lia).
  rewrite En.
  replace (- (- sh1 - sh2)) with (sh1 + sh2) by lia.
  rewrite Z.pow_add_r by lia. fold P Q.
  pose proof (Z.div_mod u 60000000 ltac:(lia)) as Hk.
  pose proof (Z.mod_pos_bound u 60000000 ltac:(lia)) as Hr.
  set (k := u / 60000000) in *.
  assert (Hk0 : 0 <= k) by (apply Z.div_pos; lia).
  assert (L1 : 60 * k * P <= mx).
  { transitivity (u * P / 1000000); auto. apply Z.div_le_lower_bound; nia. }
  assert (U1 : mx < 60 * (k + 1) * P) by nia.
  assert (L2 : k * (P * Q) <= my).
  { transitivity (mx * Q / 60); auto. apply Z.div_le_lower_bound; nia. }
  assert (U2 : my < (k + 1) * (P * Q)) by nia.
  symmetry. apply (Z.div_unique my (P * Q) k (my - k * (P * Q))); nia.
Qed.

Lemma minutes_between_floor created ended_ :
  created <= ended_ < created + 17179869184000000 ->
  minutes_between created ended_ = (ended_ - created) / 60000000 /\
  0 <= (ended_ - created) / 60000000.
Proof.
  intros H. split; [|apply Z.div_pos; lia].
  unfold minutes_between.
  destruct (Z.eq_dec ended_ created) as [->|Hne].
  - now rewrite Z.sub_diag.
  - rewrite Z.sgn_pos, Z.abs_eq by lia.
    rewrite float_minutes_floor by lia. lia.
Qed.

(** With an end time earlier than the creation time, as after the clock is
    stepped back, the quotient is truncated towards zero. *)
Example minutes_between_clock_stepped_back :
  minutes_between 90000000 0 = -1 /\ minutes_between 130000000 0 = -2.
Proof.
  split; reflexivity.
Qed.

(** An interval of 544 years: the two roundings add up and the result is one
    more than the floor of the elapsed minutes. *)
Example minutes_between_long_interval :
  minutes_between 0 17180219639999999 = 286336994 /\
  17180219639999999 / 60000000 = 286336993.
Proof.
  split; reflexivity.
Qed.

(** The division of this file and that of the Standard Library give the same
    minutes, here on intervals of a microsecond, around a minute, of years
    and of centuries. *)
Example float_minutes_specfloat :
  forallb (fun us => match specfloat_minutes (Z.to_pos us) with
                     | Some m => float_minutes us =? m
                     | None => false
                     end)
          [1; 59999999; 60000000; 60000001; 149999999; 3599999999;
           1000000000007; 9007199254740991; 9007199254740993;
           17179869183999999; 17180219639999999; 123456789012345678;
           315537897599999999] = true.
Proof.
  vm_compute. reflexivity.
Qed.

(** C7, as amended.  Timestamps are in microseconds, so a minute is 60000000
    of them and [/] is the floor of the quotient.  [get_room] returns [None]
    on an unknown id.  A room with no end time is reported with a null
    duration, and in a reachable server these are exactly the rooms that are
    not [ended].  A room whose end time is not earlier than its creation and
    less than [2 ^ 34] seconds (544 years) after it is reported with the
    floor of the elapsed minutes, which is not negative; [end_room] on a
    known room returns [True] and leaves such a room, with status [ended]
    and the time of the call as end time. *)
Theorem get_room_duration s room_id :
  (dict_get room_id (rooms s) = None -> get_room s room_id = None) /\
  (forall room,
      dict_get room_id (rooms s) = Some room ->
      Room.ended_at room = None ->
      exists snap,
        get_room s room_id = Some snap /\ s_duration_minutes snap = None) /\
  (forall room e,
      dict_get room_id (rooms s) = Some room ->
      Room.ended_at room = Some e ->
      Room.created_at room <= e < Room.created_at room + 17179869184000000 ->
      exists snap,
        get_room s room_id = Some snap /\
        s_duration_minutes snap = Some ((e - Room.created_at room) / 60000000) /\
        0 <= (e - Room.created_at room) / 60000000) /\
  (forall room url now,
      dict_get room_id (rooms s) = Some room ->
      Room.created_at room <= now < Room.created_at room + 17179869184000000 ->
      fst (end_room s room_id url now) = Ret true /\
      exists snap,
        get_room (snd (end_room s room_id url now)) room_id = Some snap /\
        s_status snap = ended /\
        s_ended_at snap = Some now /\
        s_created_at snap = Room.created_at room /\
        s_duration_minutes snap = Some ((now - Room.created_at room) / 60000000) /\
        0 <= (now - Room.created_at room) / 60000000) /\
  (reachable s ->
   forall room,
     dict_get room_id (rooms s) = Some room ->
     (Room.status room = ended <-> exists e, Room.ended_at room = Some e)).
Proof.
  split; [|split; [|split; [|split]]].
  - unfold get_room. now intros ->.
  - intros room Hg He. unfold get_room. rewrite Hg.
    eexists. split; [reflexivity|]. simpl. now rewrite He.
  - intros room e Hg He Hle. unfold get_room. rewrite Hg.
    destruct (minutes_between_floor _ _ Hle) as [Hm Hpos].
    eexists. split; [reflexivity|]. simpl. rewrite He, Hm. auto.
  - intros room url now Hg Hle. unfold end_room. rewrite Hg. simpl.
    split; [reflexivity|].
    unfold get_room. simpl. rewrite dict_get_set_same.
    destruct (minutes_between_floor _ _ Hle) as [Hm Hpos].
    eexists. split; [reflexivity|]. simpl. rewrite Hm. auto.
  - intros Hr room Hg.
    destruct (reachable_inv s Hr) as (_ & _ & Hri).
    destruct (Forall_dict_get _ _ _ _ Hri Hg) as [_ Hend]. simpl in Hend.
    rewrite <- Hend. destruct (Room.ended_at room) as [e|].
    + split; [eauto | discriminate].
    + split; [congruence | intros (e & He); discriminate].
Qed.

Lemma get_room_duration_witness :
  let s := run [CreateRoom "Standup" "alice" 5 "1a2b3c4d" 1000000] (init empty_db) in
  let room := Room.mk "1a2b3c4d" "Standup" "alice" [] 5 active 1000000 None "" in
  (dict_get "deadbeef" (rooms s) = None /\ get_room s "deadbeef" = None) /\
  (dict_get "1a2b3c4d" (rooms s) = Some room /\
   Room.ended_at room = None /\
   exists snap,
     get_room s "1a2b3c4d" = Some snap /\ s_duration_minutes snap = None) /\
  (Room.created_at room <= 150999999 < Room.created_at room + 17179869184000000 /\
   fst (end_room s "1a2b3c4d" "" 150999999) = Ret true /\
   exists snap,
     get_room (snd (end_room s "1a2b3c4d" "" 150999999)) "1a2b3c4d" = Some snap /\
     s_status snap = ended /\
     s_duration_minutes snap = Some 2) /\
  (reachable s /\ (Room.status room = ended <-> exists e, Room.ended_at room = Some e)).
Proof.
  intros s room.
  assert (Hr : reachable s) by (exists empty_db; eexists; reflexivity).
  assert (Hle : Room.created_at room <= 150999999
                < Room.created_at room + 17179869184000000) by (simpl; lia).
  pose proof (get_room_duration s "deadbeef") as (Hnone & _).
  pose proof (get_room_duration s "1a2b3c4d") as (_ & Hopen & _ & Hend & Hst).
  split; [split; [reflexivity | exact (Hnone eq_refl)]|].
  split; [split; [reflexivity | split; [reflexivity | exact (Hopen room eq_refl eq_refl)]]|].
  split; [split; [exact Hle|]|split; [exact Hr | exact (Hst Hr room eq_refl)]].
  destruct (Hend room "" 150999999 eq_refl Hle)
    as (Ht & snap & Hg & Hs & _ & _ & Hd & _).
  split; [exact Ht|]. exists snap. auto.
Defined.

(** The claim as it is written fails when the clock is stepped back between
    the creation and the end of a room: the room is ended, and the duration
    reported is negative and is not the floor of the elapsed minutes. *)
Lemma clock_stepped_back_counterexample :
  let s := run [CreateRoom "Standup" "alice" 5 "1a2b3c4d" 90000000;
                EndRoom "1a2b3c4d" "" 0] (init empty_db) in
  option_map s_status (get_room s "1a2b3c4d") = Some ended /\
  option_map s_duration_minutes (get_room s "1a2b3c4d") = Some (Some (-1)) /\
  ~ 0 <= -1 /\
  (0 - 90000000) / 60000000 = -2.
Proof.
  split; [reflexivity|]. split; [reflexivity|]. split; [lia | reflexivity].
Qed.

(** ** C6: the join events counted by [room_stats] *)

Lemma count_participants_update_left_at now room_id user rid d :
  count_participants rid (update_left_at now room_id user d) = count_participants rid d.
Proof.
  unfold count_participants, update_left_at. simpl. f_equal.
  induction (t_participants d) as [|r rows IH]; simpl; auto.
  assert (E : pr_room_id (if open_session room_id user r then stamp_left now r else r)
              = pr_room_id r) by (destruct (open_session _ _ _); reflexivity).
  rewrite E. destruct (String.eqb (pr_room_id r) rid); simpl; auto.
Qed.

Lemma count_participants_insert row rid d d' :
  insert_participant row d = Ret d' ->
  count_participants rid d' =
  count_participants rid d + (if String.eqb (pr_room_id row) rid then 1 else 0).
Proof.
  unfold insert_participant, count_participants.
  destruct (existsb _ _); [discriminate|].
  intros H. injection H as <-. simpl.
  rewrite filter_app, length_app. simpl.
  destruct (String.eqb (pr_room_id row) rid); simpl; lia.
Qed.

(** [join_room] adds one row to the count of its room exactly when it returns
    [True]. *)
Lemma count_participants_join rid s room_id user uuid8 now :
  count_participants rid (db (snd (join_room s room_id user uuid8 now))) =
  count_participants rid (db s) +
  match fst (join_room s room_id user uuid8 now) with
  | Ret true => if String.eqb room_id rid then 1 else 0
  | _ => 0
  end.
Proof.
  unfold join_room.
  destruct (dict_get room_id (rooms s)) as [room|]; cbv beta iota zeta;
    [|simpl; lia].
  destruct (_ >=? _); [simpl; lia|].
  cbn [participants db rooms].
  destruct (dict_get room_id (participants s)) as [ps|]; [|simpl; lia].
  destruct (set_add _ ps) as [ps'|e]; [|simpl; lia].
  destruct (insert_participant _ (db s)) as [d'|e] eqn:Hins; [|simpl; lia].
  cbn [fst snd db].
  now rewrite (count_participants_insert _ rid _ _ Hins).
Qed.

(** One call adds one row to the count of a room exactly when it is a
    [join_room] on that room that returns [True]. *)
Lemma count_participants_step rid s c :
  count_participants rid (db (snd (step s c))) =
  count_participants rid (db s) + successful_joins rid [c] s.
Proof.
  destruct c.
  - simpl. unfold create_room, insert_room; simpl.
    destruct (negb (in_int64 max_size)); [|destruct (existsb _ _)];
      simpl; unfold count_participants; simpl; lia.
  - cbn [step successful_joins].
    pose proof (count_participants_join rid s room_id user uuid8 now) as H.
    destruct (join_room s room_id user uuid8 now) as [[[|]|e] s']; simpl in *;
      rewrite H; lia.
  - simpl. unfold leave_room.
    destruct (dict_get room_id (rooms s)); simpl; [|lia].
    destruct (negb _); simpl; [lia|].
    rewrite count_participants_update_left_at. lia.
  - simpl. unfold toggle_media.
    destruct (dict_get room_id (rooms s)); simpl; [|lia].
    destruct (dict_get room_id (participants s)); simpl; [|lia].
    destruct (toggle_first _ _ _ _); simpl; lia.
  - simpl. unfold end_room.
    destruct (dict_get room_id (rooms s)); simpl; [|lia].
    unfold count_participants. simpl. lia.
Qed.




(** Since [join_room] fails before its [INSERT] whenever it gets past the
    capacity test, that number is zero for every sequence of calls. *)
Lemma successful_joins_zero room_id cs : forall s,
  successful_joins room_id cs s = 0.
Proof.
  induction cs as [|c cs IH]; intros s; [reflexivity|].
  cbn [successful_joins]. rewrite IH.
  destruct c as [? ? ? ? ?|rid user uuid8 now|? ? ?|? ? ? ?|? ? ?];
    try reflexivity.
  cbn [step].
  pose proof (join_room_never_true s rid user uuid8 now) as Hn.
  destruct (join_room s rid user uuid8 now) as [[[|]|e] s']; simpl in *;
    congruence.
Qed.



(** ** C3: the history of a user *)

Lemma in_history_spec user room :
  in_history user room = true <->
  In user (Room.participants room) /\ Room.status room = ended.
Proof.
  unfold in_history. rewrite andb_true_iff, list_in_In.
  destruct (Room.status room); simpl; intuition congruence.
Qed.

Lemma insert_desc_perm x l : Permutation (x :: l) (insert_desc x l).
Proof.
  induction l as [|y l IH]; simpl; auto.
  destruct (_ <=? _); auto.
  rewrite perm_swap. now constructor.
Qed.

Lemma sorted_desc_perm l : Permutation l (sorted_desc l).
Proof.
  induction l as [|x l IH]; simpl; auto.
  rewrite <- insert_desc_perm. now constructor.
Qed.

Lemma insert_desc_sorted x l :
  StronglySorted newer_first l -> StronglySorted newer_first (insert_desc x l).
Proof.
  induction l as [|y l IH]; simpl; intros Hs.
  - repeat constructor.
  - inversion Hs as [|? ? Hs' Hy]; subst.
    destruct (Z.leb_spec (s_created_at y) (s_created_at x)) as [Hle|Hlt].
    + constructor; auto. constructor; auto.
      rewrite Forall_forall in *. intros z Hz.
      specialize (Hy z Hz). unfold newer_first in *. lia.
    + constructor; auto.
      rewrite Forall_forall in *. intros z Hz.
      apply Permutation_in with (l' := x :: l) in Hz;
        [|symmetry; apply insert_desc_perm].
      destruct Hz as [<-|Hz]; auto. unfold newer_first. lia.
Qed.

Lemma sorted_desc_sorted l : StronglySorted newer_first (sorted_desc l).
Proof.
  induction l as [|x l IH]; simpl; [constructor | now apply insert_desc_sorted].
Qed.

Lemma all_some_map_Some {A B : Type} (f : A -> B) (g : A -> option B) l :
  (forall a, In a l -> g a = Some (f a)) -> all_some (map g l) = Some (map f l).
Proof.
  induction l as [|a l IH]; simpl; auto.
  intros H. rewrite (H a), IH; auto.
Qed.

Lemma NoDup_map_filter {A B : Type} (f : A -> B) (p : A -> bool) l :
  NoDup (map f l) -> NoDup (map f (filter p l)).
Proof.
  induction l as [|a l IH]; simpl; auto.
  intros H. inversion H as [|? ? Hnot Hnd]; subst.
  destruct (p a); simpl; auto.
  constructor; auto.
  intros Hin. apply Hnot. rewrite in_map_iff in *.
  destruct Hin as (b & Hb & Hin). exists b. split; auto.
  apply filter_In in Hin. tauto.
Qed.

Lemma In_firstn {A : Type} k (x : A) l : In x (firstn k l) -> In x l.
Proof.
  revert l. induction k as [|k IH]; intros [|y l]; simpl; try tauto.
  intros [H|H]; auto.
Qed.

Lemma In_slice_to {A : Type} n (x : A) l : In x (slice_to n l) -> In x l.
Proof.
  unfold slice_to. destruct (0 <=? n); apply In_firstn.
Qed.

Lemma wf_ids s : wf s -> map Room.id (dict_values (rooms s)) = map fst (rooms s).
Proof.
  intros (Hid & _ & _). unfold dict_values. rewrite map_map.
  induction Hid as [|[k r] d H Hid IH]; simpl in *; congruence.
Qed.

(** In a well-formed server every room is found under its own identifier, so
    no element of the history is [None] and the sort goes through. *)
Lemma get_user_history_wf s user n :
  wf s ->
  get_user_history s user n =
  Ret (slice_to n (sorted_desc (map snapshot
         (filter (in_history user) (dict_values (rooms s)))))).
Proof.
  intros Hwf. unfold get_user_history.
  rewrite (all_some_map_Some snapshot); auto.
  intros room Hin. apply filter_In in Hin as [Hin _].
  unfold dict_values in Hin. apply in_map_iff in Hin as ([k r] & Hr & Hin).
  simpl in Hr. subst r.
  destruct Hwf as (Hid & Hnd & _).
  rewrite Forall_forall in Hid. pose proof (Hid _ Hin) as Hk. simpl in Hk.
  unfold get_room. rewrite <- Hk. now rewrite (In_dict_get _ _ _ Hnd Hin).
Qed.

Lemma count_occ_list_remove x l :
  count_occ string_dec l x = 1%nat -> ~ In x (list_remove x l).
Proof.
  induction l as [|y l IH]; simpl; [discriminate|].
  destruct (string_dec y x) as [->|Hne].
  - rewrite String.eqb_refl. intros H.
    apply (count_occ_not_In string_dec). lia.
  - destruct (String.eqb_spec x y) as [->|_]; [congruence|].
    intros H [->|Hin]; [congruence|]. now apply IH.
Qed.

Lemma snd_lift {A : Type} (f : A -> value) r : snd (lift f r) = snd r.
Proof.
  now destruct r as [[a|e] s].
Qed.

(** The whole history of a user: the snapshots of exactly the ended rooms
    that still list the user, each room once, newest creation first. *)
Lemma whole_history_spec s user :
  wf s ->
  let full := sorted_desc (map snapshot
                (filter (in_history user) (dict_values (rooms s)))) in
  (forall x,
      In x full <->
      exists k room,
        In (k, room) (rooms s) /\
        Room.status room = ended /\
        In user (Room.participants room) /\
        x = snapshot room) /\
  NoDup (map s_id full) /\
  StronglySorted newer_first full.
Proof.
  intros Hwf full. unfold full.
  set (sel := filter (in_history user) (dict_values (rooms s))).
  split; [|split].
  - intros x. split.
    + intros Hx.
      apply Permutation_in with (l' := map snapshot sel) in Hx;
        [|symmetry; apply sorted_desc_perm].
      apply in_map_iff in Hx as (room & <- & Hin).
      apply filter_In in Hin as [Hin Hh].
      apply in_history_spec in Hh as [Hu Hs].
      unfold dict_values in Hin. apply in_map_iff in Hin as ([k r] & Hkr & Hin).
      simpl in Hkr. subst r. exists k, room. auto.
    + intros (k & room & Hin & Hs & Hu & ->).
      apply Permutation_in with (l := map snapshot sel);
        [apply sorted_desc_perm|].
      apply in_map. apply filter_In. split.
      * unfold dict_values. apply in_map_iff. exists (k, room). auto.
      * apply in_history_spec. auto.
  - apply Permutation_NoDup with (l := map s_id (map snapshot sel)).
    + apply Permutation_map, sorted_desc_perm.
    + rewrite map_map. simpl.
      apply (NoDup_map_filter Room.id). rewrite (wf_ids s Hwf).
      now destruct Hwf as (_ & Hnd & _).
  - apply sorted_desc_sorted.
Qed.

(** C3, as amended.  In a reachable server there is one list, the whole
    history of the user, that holds exactly the snapshots of the rooms whose
    status is [ended] and whose list still has the user, each room once,
    newest creation first; and for every integer [n], [get_user_history]
    returns its first [n] entries when [n] is not negative, and all but its
    last [-n] entries when [n] is negative.  And when a user with a single
    entry on a room's list leaves the room and the room is then ended, the
    room is not in the history of that user, whatever the bound. *)
Theorem get_user_history_spec s user :
  reachable s ->
  (exists full,
      (forall x,
          In x full <->
          exists k room,
            In (k, room) (rooms s) /\
            Room.status room = ended /\
            In user (Room.participants room) /\
            x = snapshot room) /\
      NoDup (map s_id full) /\
      StronglySorted newer_first full /\
      forall n,
        get_user_history s user n =
        Ret (if 0 <=? n then firstn (Z.to_nat n) full
             else firstn (length full - Z.to_nat (- n)) full)) /\
  (forall room_id room now url now' n,
      dict_get room_id (rooms s) = Some room ->
      count_occ string_dec (Room.participants room) user = 1%nat ->
      let r1 := leave_room s room_id user now in
      let r2 := end_room (snd r1) room_id url now' in
      fst r1 = Ret true /\
      fst r2 = Ret true /\
      exists h,
        get_user_history (snd r2) user n = Ret h /\ ~ In room_id (map s_id h)).
Proof.
  intros Hr. split.
  - destruct (reachable_inv s Hr) as (Hwf & _ & _).
    destruct (whole_history_spec s user Hwf) as (Hin & Hnd & Hs).
    eexists. split; [exact Hin|]. split; [exact Hnd|]. split; [exact Hs|].
    intros n. rewrite get_user_history_wf by exact Hwf.
    unfold slice_to. destruct (Z.leb_spec 0 n); [reflexivity|].
    do 2 f_equal. lia.
  - intros room_id room now url now' n Hg Hc r1 r2.
    assert (Hin : In user (Room.participants room)).
    { apply (count_occ_In string_dec). lia. }
    apply list_in_In in Hin.
    assert (E1 : r1 = (Ret true,
                       mkServer (dict_set room_id (Room.remove room user) (rooms s))
                                (participants s)
                                (update_left_at now room_id user (db s)))).
    { unfold r1, leave_room. now rewrite Hg, Hin. }
    assert (Hg1 : dict_get room_id (rooms (snd r1)) = Some (Room.remove room user)).
    { rewrite E1. simpl. apply dict_get_set_same. }
    assert (E2 : r2 = (Ret true,
                       mkServer (dict_set room_id
                                   (Room.finish (Room.remove room user) now' url)
                                   (rooms (snd r1)))
                                (participants (snd r1))
                                (update_room_ended now' url room_id (db (snd r1))))).
    { unfold r2, end_room. now rewrite Hg1. }
    split; [now rewrite E1|]. split; [now rewrite E2|].
    assert (Hr2 : reachable (snd r2)).
    { pose proof (reachable_step _ (LeaveRoom room_id user now) Hr) as H1.
      simpl in H1. rewrite snd_lift in H1.
      pose proof (reachable_step _ (EndRoom room_id url now') H1) as H2.
      simpl in H2. rewrite snd_lift in H2. exact H2. }
    destruct (reachable_inv _ Hr2) as (Hwf & _ & _).
    eexists. split; [apply get_user_history_wf; exact Hwf|].
    intros Hbad. apply in_map_iff in Hbad as (x & Hid & Hx).
    apply In_slice_to in Hx.
    apply Permutation_in with (l' := map snapshot
            (filter (in_history user) (dict_values (rooms (snd r2))))) in Hx;
      [|symmetry; apply sorted_desc_perm].
    apply in_map_iff in Hx as (room' & <- & Hsel).
    apply filter_In in Hsel as [Hin' Hh].
    apply in_history_spec in Hh as [Hu _].
    unfold dict_values in Hin'. apply in_map_iff in Hin' as ([k r] & Hkr & Hin').
    simpl in Hkr. subst r.
    destruct Hwf as (Hids & Hnd & _).
    rewrite Forall_forall in Hids. pose proof (Hids _ Hin') as Hk.
    simpl in Hk, Hid. rewrite <- Hk in Hid. subst k.
    apply (In_dict_get _ _ _ Hnd) in Hin'.
    rewrite E2 in Hin'. simpl in Hin'. rewrite dict_get_set_same in Hin'.
    injection Hin' as <-. simpl in Hu.
    now apply count_occ_list_remove in Hc.
Qed.

Lemma get_user_history_spec_witness :
  let s := run [CreateRoom "Standup" "alice" 5 "aaaaaaaa" 1000;
                CreateRoom "Retro" "alice" 5 "bbbbbbbb" 2000;
                CreateRoom "Demo" "alice" 5 "cccccccc" 3000;
                JoinRoom "aaaaaaaa" "bob" "p0000001" 4000;
                JoinRoom "bbbbbbbb" "bob" "p0000002" 4100;
                JoinRoom "cccccccc" "bob" "p0000003" 4200;
                JoinRoom "aaaaaaaa" "carol" "p0000004" 4300;
                EndRoom "aaaaaaaa" "" 5000;
                EndRoom "bbbbbbbb" "" 6000] (init empty_db) in
  let demo := Room.mk "cccccccc" "Demo" "alice" ["bob"] 5 active 3000 None "" in
  reachable s /\
  (exists full,
      StronglySorted newer_first full /\
      get_user_history s "bob" 1 = Ret (firstn 1 full) /\
      get_user_history s "bob" (-1) = Ret (firstn (length full - 1) full)) /\
  dict_get "cccccccc" (rooms s) = Some demo /\
  count_occ string_dec (Room.participants demo) "bob" = 1%nat /\
  (exists h,
      get_user_history
        (snd (end_room (snd (leave_room s "cccccccc" "bob" 7000)) "cccccccc" "" 8000))
        "bob" 10 = Ret h /\
      ~ In "cccccccc" (map s_id h)).
Proof.
  intros s demo.
  assert (Hr : reachable s) by (exists empty_db; eexists; reflexivity).
  assert (Hc : count_occ string_dec (Room.participants demo) "bob" = 1%nat)
    by reflexivity.
  destruct (get_user_history_spec s "bob" Hr) as [Hfirst Hleft].
  split; [exact Hr|]. split.
  - destruct Hfirst as (full & _ & _ & Hs & Hg). exists full.
    split; [exact Hs|]. split; [exact (Hg 1) | exact (Hg (-1))].
  - split; [reflexivity|]. split; [exact Hc|].
    destruct (Hleft "cccccccc" demo 7000 "" 8000 10 eq_refl Hc) as (_ & _ & Hh).
    exact Hh.
Defined.

(** The claim as it is written fails for a negative bound: with two rooms in
    the history of bob, the bound -1 gives one entry, which is not at most -1
    entries. *)
Lemma negative_bound_counterexample :
  let s := run [CreateRoom "Standup" "alice" 5 "aaaaaaaa" 1000;
                CreateRoom "Retro" "alice" 5 "bbbbbbbb" 2000;
                JoinRoom "aaaaaaaa" "bob" "p0000001" 4000;
                JoinRoom "bbbbbbbb" "bob" "p0000002" 4100;
                EndRoom "aaaaaaaa" "" 5000;
                EndRoom "bbbbbbbb" "" 6000] (init empty_db) in
  exists h,
    get_user_history s "bob" (-1) = Ret h /\
    map s_id h = ["bbbbbbbb"] /\
    ~ Z.of_nat (length h) <= -1.
Proof.
  eexists. split; [reflexivity|]. split; [reflexivity|]. simpl. lia.
Qed.

(** The history of bob in that server: the two ended rooms, newest first. *)
Example get_user_history_example :
  let s := run [CreateRoom "Standup" "alice" 5 "aaaaaaaa" 1000;
                CreateRoom "Retro" "alice" 5 "bbbbbbbb" 2000;
                CreateRoom "Demo" "alice" 5 "cccccccc" 3000;
                JoinRoom "aaaaaaaa" "bob" "p0000001" 4000;
                JoinRoom "bbbbbbbb" "bob" "p0000002" 4100;
                JoinRoom "cccccccc" "bob" "p0000003" 4200;
                JoinRoom "aaaaaaaa" "carol" "p0000004" 4300;
                EndRoom "aaaaaaaa" "" 5000;
                EndRoom "bbbbbbbb" "" 6000] (init empty_db) in
  match get_user_history s "bob" 10, get_user_history s "bob" 1 with
  | Ret h10, Ret h1 => map s_id h10 = ["bbbbbbbb"; "aaaaaaaa"] /\ map s_id h1 = ["bbbbbbbb"]
  | _, _ => False
  end.
Proof.
  split; reflexivity.
Qed.

(** A negative bound is a Python slice from the end: [[:-1]] drops the last
    entry instead of bounding the length. *)
Example slice_to_negative :
  slice_to (-1) ["bbbbbbbb"; "aaaaaaaa"] = ["bbbbbbbb"] /\
  slice_to 1 ["bbbbbbbb"; "aaaaaaaa"] = ["bbbbbbbb"] /\
  slice_to 0 ["bbbbbbbb"; "aaaaaaaa"] = [].
Proof.
  repeat split; reflexivity.
Qed.

(** * Further properties of the registry *)

(** ** More on dictionaries and lists *)

Lemma dict_set_set {V : Type} k (v1 v2 : V) d :
  dict_set k v2 (dict_set k v1 d) = dict_set k v2 d.
Proof.
  induction d as [|[k0 v0] d IH]; simpl.
  - now rewrite String.eqb_refl.
  - destruct (String.eqb k k0) eqn:E; simpl; rewrite E; congruence.
Qed.

Lemma dict_set_unchanged {V : Type} k (v : V) d :
  dict_get k d = Some v -> dict_set k v d = d.
Proof.
  induction d as [|[k0 v0] d IH]; simpl; [discriminate|].
  destruct (String.eqb k k0); intros H.
  - now injection H as ->.
  - now rewrite IH.
Qed.

Lemma list_remove_app_last x l : ~ In x l -> list_remove x (l ++ [x]) = l.
Proof.
  induction l as [|y l IH]; simpl; intros H.
  - now rewrite String.eqb_refl.
  - destruct (String.eqb_spec x y) as [->|_]; [tauto|].
    rewrite IH; tauto.
Qed.

Lemma length_list_remove_In x l :
  In x l -> S (length (list_remove x l)) = length l.
Proof.
  induction l as [|y l IH]; simpl; [tauto|].
  destruct (String.eqb_spec x y) as [->|Hne]; auto.
  intros [->|H]; [congruence|]. simpl. now rewrite IH.
Qed.

Lemma existsb_rr_id rid rows :
  existsb (fun r => String.eqb (rr_id r) rid) rows = true <-> In rid (map rr_id rows).
Proof.
  rewrite existsb_exists, in_map_iff. split.
  - intros (r & Hr & E). apply String.eqb_eq in E. eauto.
  - intros (r & E & Hr). exists r. split; auto. now apply String.eqb_eq.
Qed.

Lemma update_room_ended_ids now url rid d :
  map rr_id (t_rooms (update_room_ended now url rid d)) = map rr_id (t_rooms d).
Proof.
  unfold update_room_ended. simpl. rewrite map_map. apply map_ext.
  intros r. now destruct (String.eqb (rr_id r) rid).
Qed.

(** ** Every room in memory has its row *)

Lemma In_dict_set {V : Type} k (v : V) d k' v' :
  In (k', v') (dict_set k v d) -> (k' = k /\ v' = v) \/ In (k', v') d.
Proof.
  induction d as [|[k0 v0] d IH]; simpl.
  - intros [H|[]]. injection H as <- <-. auto.
  - destruct (String.eqb_spec k k0) as [->|Hne]; simpl.
    + intros [H|H]; [injection H as <- <-|]; auto.
    + intros [H|H]; auto. destruct (IH H); auto.
Qed.

Lemma stored_set_room s room_id room room' ps d :
  stored s ->
  dict_get room_id (rooms s) = Some room ->
  Room.max_size room' = Room.max_size room ->
  map rr_id (t_rooms d) = map rr_id (t_rooms (db s)) ->
  stored (mkServer (dict_set room_id room' (rooms s)) ps d).
Proof.
  unfold stored. simpl. intros Hs Hg Hm Hd k r Hin Hr. rewrite Hd.
  apply In_dict_set in Hin as [[-> ->]|Hin]; [|eauto].
  apply dict_get_In in Hg. apply (Hs _ _ Hg). congruence.
Qed.

Lemma stored_step s c : stored s -> stored (snd (step s c)).
Proof.
  intros Hs. destruct c; simpl.
  - unfold create_room, insert_room. simpl.
    destruct (in_int64 max_size) eqn:Hm; simpl;
      [destruct (existsb _ (t_rooms (db s))) eqn:E; simpl|];
      unfold stored; simpl; intros k r Hin Hr;
      apply In_dict_set in Hin as [[-> ->]|Hin].
    + now apply existsb_rr_id in E.
    + eauto.
    + rewrite map_app. apply in_or_app. right. simpl. auto.
    + rewrite map_app. apply in_or_app. left. eauto.
    + simpl in Hr. congruence.
    + eauto.
  - rewrite join_room_eq.
    destruct (dict_get room_id (rooms s)) as [room|] eqn:Hg; simpl; auto.
    destruct (_ >=? _); simpl; auto.
    destruct (dict_get room_id (participants s)); simpl;
      now apply stored_set_room with (room := room).
  - unfold leave_room.
    destruct (dict_get room_id (rooms s)) as [room|] eqn:Hg; simpl; auto.
    destruct (negb _); simpl; auto.
    now apply stored_set_room with (room := room).
  - unfold toggle_media.
    destruct (dict_get room_id (rooms s)); simpl; auto.
    destruct (dict_get room_id (participants s)); simpl; auto.
    destruct (toggle_first _ _ _ _); simpl; auto.
  - unfold end_room.
    destruct (dict_get room_id (rooms s)) as [room|] eqn:Hg; simpl; auto.
    apply stored_set_room with (room := room); auto.
    apply update_room_ended_ids.
Qed.

Lemma reachable_stored s : reachable s -> stored s.
Proof.
  intros (d & cs & ->).
  assert (H : forall s0, stored s0 -> stored (run cs s0)).
  { induction cs as [|c cs IH]; simpl; auto using stored_step. }
  apply H. intros k room [].
Qed.

(** ** [join_room]: the three outcomes *)

(** In a reachable server [join_room] returns [False], changing nothing, on an
    unknown room and on a room whose list has reached [max_size]; on any other
    room it raises [TypeError], with the user appended to the room's list and
    nothing else changed.  It never returns [True]. *)
Theorem join_room_outcome s room_id user uuid8 now :
  reachable s ->
  (dict_get room_id (rooms s) = None ->
   join_room s room_id user uuid8 now = (Ret false, s)) /\
  (forall room,
      dict_get room_id (rooms s) = Some room ->
      Room.max_size room <= Z.of_nat (length (Room.participants room)) ->
      join_room s room_id user uuid8 now = (Ret false, s)) /\
  (forall room,
      dict_get room_id (rooms s) = Some room ->
      Z.of_nat (length (Room.participants room)) < Room.max_size room ->
      join_room s room_id user uuid8 now =
      (Raise TypeError,
       mkServer (dict_set room_id
                   (Room.mk (Room.id room) (Room.name room) (Room.host room)
                            (Room.participants room ++ [user])
                            (Room.max_size room) (Room.status room)
                            (Room.created_at room) (Room.ended_at room)
                            (Room.recording_url room))
                   (rooms s))
                (participants s) (db s))) /\
  fst (join_room s room_id user uuid8 now) <> Ret true.
Proof.
  intros Hr. repeat split.
  - apply join_room_unknown.
  - intros room. apply join_room_full.
  - intros room Hg Hlt. now apply join_room_below_capacity.
  - apply join_room_never_true.
Qed.

Lemma join_room_outcome_witness :
  let s := run [CreateRoom "Standup" "alice" 1 "1a2b3c4d" 1000;
                CreateRoom "Retro" "alice" 3 "5e6f7a8b" 1500;
                JoinRoom "1a2b3c4d" "bob" "p0000001" 2000] (init empty_db) in
  let full := Room.mk "1a2b3c4d" "Standup" "alice" ["bob"] 1 active 1000 None "" in
  let retro := Room.mk "5e6f7a8b" "Retro" "alice" [] 3 active 1500 None "" in
  reachable s /\
  (dict_get "deadbeef" (rooms s) = None /\
   join_room s "deadbeef" "carol" "p0000002" 3000 = (Ret false, s)) /\
  (dict_get "1a2b3c4d" (rooms s) = Some full /\
   Room.max_size full <= Z.of_nat (length (Room.participants full)) /\
   join_room s "1a2b3c4d" "carol" "p0000002" 3000 = (Ret false, s)) /\
  (dict_get "5e6f7a8b" (rooms s) = Some retro /\
   Z.of_nat (length (Room.participants retro)) < Room.max_size retro /\
   fst (join_room s "5e6f7a8b" "carol" "p0000002" 3000) = Raise TypeError).
Proof.
  intros s full retro.
  assert (Hr : reachable s) by (exists empty_db; eexists; reflexivity).
  assert (Hfull : Room.max_size full <= Z.of_nat (length (Room.participants full)))
    by (simpl; lia).
  assert (Hlt : Z.of_nat (length (Room.participants retro)) < Room.max_size retro)
    by (simpl; lia).
  split; [exact Hr|].
  split; [split; [reflexivity|]|split; [split; [reflexivity | split; [exact Hfull|]]|]].
  - exact (proj1 (join_room_outcome s "deadbeef" "carol" "p0000002" 3000 Hr) eq_refl).
  - exact (proj1 (proj2 (join_room_outcome s "1a2b3c4d" "carol" "p0000002" 3000 Hr))
             full eq_refl Hfull).
  - split; [reflexivity|]. split; [exact Hlt|].
    rewrite (proj1 (proj2 (proj2
               (join_room_outcome s "5e6f7a8b" "carol" "p0000002" 3000 Hr)))
               retro eq_refl Hlt).
    reflexivity.
Defined.

(** ** [get_active_rooms] *)

Lemma get_active_rooms_wf s :
  wf s ->
  get_active_rooms s =
  map (fun room => Some (snapshot room))
      (filter (fun room => Status_eqb (Room.status room) active)
              (dict_values (rooms s))).
Proof.
  intros (_ & Hnd & _). unfold get_active_rooms, dict_values.
  assert (H : forall l,
             (forall kr, In kr l -> dict_get (fst kr) (rooms s) = Some (snd kr)) ->
             map (get_room s) (filter (is_active s) (map fst l)) =
             map (fun room => Some (snapshot room))
                 (filter (fun room => Status_eqb (Room.status room) active)
                         (map snd l))).
  { induction l as [|[k r] l IH]; intros Hl; [reflexivity|].
    pose proof (Hl (k, r) (or_introl eq_refl)) as Hk. simpl in Hk.
    assert (IH' := IH (fun kr Hin => Hl kr (or_intror Hin))).
    cbn [map filter fst snd].
    assert (Ea : is_active s k = Status_eqb (Room.status r) active)
      by (unfold is_active; now rewrite Hk).
    rewrite Ea. destruct (Status_eqb (Room.status r) active); auto.
    cbn [map]. rewrite IH'. f_equal.
    unfold get_room. now rewrite Hk. }
  apply H. intros [k r] Hin. simpl. now apply In_dict_get.
Qed.

Lemma reachable_create s name host max_size uuid8 now :
  reachable s -> reachable (snd (create_room s name host max_size uuid8 now)).
Proof.
  intros Hr.
  pose proof (reachable_step s (CreateRoom name host max_size uuid8 now) Hr) as H.
  simpl in H. now rewrite snd_lift in H.
Qed.

(** ** [create_room] *)

(** With a capacity that fits a signed 64-bit integer and an identifier that
    has no row in the store, [create_room] returns the identifier and its
    join URL; the room can then be looked up, active and empty with no
    duration, it is listed among the live meetings, its statistics count the
    sessions the store already held for that identifier, and the store has
    one more row. *)
Theorem create_room_fresh s name host max_size uuid8 now :
  reachable s ->
  in_int64 max_size = true ->
  ~ In uuid8 (map rr_id (t_rooms (db s))) ->
  let r := create_room s name host max_size uuid8 now in
  let snap := mkSnapshot uuid8 name host [] max_size active now None "" None in
  fst r = Ret (uuid8, String.append "https://meet.blackroad.io/r/" uuid8) /\
  get_room (snd r) uuid8 = Some snap /\
  In (Some snap) (get_active_rooms (snd r)) /\
  room_stats (snd r) uuid8 = Some (mkStats 0 0 (count_participants uuid8 (db s))) /\
  dict_get uuid8 (participants (snd r)) = Some [] /\
  t_rooms (db (snd r)) =
    t_rooms (db s) ++ [mkRoomRow uuid8 name host max_size active now None ""] /\
  t_participants (db (snd r)) = t_participants (db s).
Proof.
  intros Hr Hm Hfresh r snap.
  pose proof (reachable_create s name host max_size uuid8 now Hr) as Hr'.
  fold r in Hr'.
  assert (E : existsb (fun row => String.eqb (rr_id row) uuid8) (t_rooms (db s)) = false).
  { destruct (existsb _ _) eqn:E; auto. now apply existsb_rr_id in E. }
  assert (Er : r = (Ret (uuid8, join_url uuid8),
                    mkServer
                      (dict_set uuid8
                         (Room.mk uuid8 name host [] max_size active now None "")
                         (rooms s))
                      (dict_set uuid8 [] (participants s))
                      (mkDB (t_rooms (db s) ++
                               [mkRoomRow uuid8 name host max_size active now None ""])
                            (t_participants (db s))))).
  { unfold r, create_room, insert_room. simpl. now rewrite Hm, E. }
  assert (Hg : dict_get uuid8 (rooms (snd r)) =
               Some (Room.mk uuid8 name host [] max_size active now None "")).
  { rewrite Er. simpl. apply dict_get_set_same. }
  split; [now rewrite Er|].
  split; [unfold get_room; now rewrite Hg|].
  split.
  - destruct (reachable_inv _ Hr') as (Hwf & _ & _).
    rewrite (get_active_rooms_wf _ Hwf).
    apply (in_map (fun room => Some (snapshot room)) _
                  (Room.mk uuid8 name host [] max_size active now None "")).
    apply filter_In. split; [|reflexivity].
    apply dict_get_In in Hg. unfold dict_values.
    now apply (in_map snd) in Hg.
  - split; [unfold room_stats; rewrite Hg; now rewrite Er|].
    split; [rewrite Er; simpl; apply dict_get_set_same|].
    now rewrite Er.
Qed.

Lemma create_room_fresh_witness :
  let s := run [CreateRoom "Standup" "alice" 5 "1a2b3c4d" 1000;
                JoinRoom "1a2b3c4d" "bob" "p0000001" 2000] (init empty_db) in
  let r := create_room s "Retro" "carol" 3 "5e6f7a8b" 3000 in
  reachable s /\
  in_int64 3 = true /\
  ~ In "5e6f7a8b" (map rr_id (t_rooms (db s))) /\
  fst r = Ret ("5e6f7a8b", "https://meet.blackroad.io/r/5e6f7a8b") /\
  get_room (snd r) "5e6f7a8b"
    = Some (mkSnapshot "5e6f7a8b" "Retro" "carol" [] 3 active 3000 None "" None) /\
  room_stats (snd r) "5e6f7a8b" = Some (mkStats 0 0 0).
Proof.
  intros s r.
  assert (Hr : reachable s) by (exists empty_db; eexists; reflexivity).
  assert (Hf : ~ In "5e6f7a8b" (map rr_id (t_rooms (db s)))).
  { simpl. intros [H|[]]. discriminate. }
  destruct (create_room_fresh s "Retro" "carol" 3 "5e6f7a8b" 3000 Hr eq_refl Hf)
    as (H1 & H2 & _ & H4 & _).
  split; [exact Hr|]. split; [reflexivity|]. split; [exact Hf|].
  split; [exact H1|]. split; [exact H2 | exact H4].
Defined.

(** With the identifier of a room the server already holds, and whose
    capacity fits a signed 64-bit integer, [create_room] raises and leaves
    the store as it was ([OverflowError] when the new capacity does not fit,
    [IntegrityError] otherwise), but only after it has replaced the room in
    memory by a new, empty, active one; the other rooms are untouched. *)
Theorem create_room_collision s name host max_size uuid8 now old :
  reachable s ->
  dict_get uuid8 (rooms s) = Some old ->
  in_int64 (Room.max_size old) = true ->
  let r := create_room s name host max_size uuid8 now in
  fst r = Raise (if in_int64 max_size then IntegrityError else OverflowError) /\
  db (snd r) = db s /\
  get_room (snd r) uuid8 =
    Some (mkSnapshot uuid8 name host [] max_size active now None "" None) /\
  dict_get uuid8 (participants (snd r)) = Some [] /\
  (forall k, k <> uuid8 -> get_room (snd r) k = get_room s k).
Proof.
  intros Hr Hg Hold r.
  assert (E : existsb (fun row => String.eqb (rr_id row) uuid8) (t_rooms (db s)) = true).
  { apply existsb_rr_id. apply (reachable_stored s Hr uuid8 old); auto.
    now apply dict_get_In. }
  assert (Er : r = (Raise (if in_int64 max_size then IntegrityError else OverflowError),
                    mkServer
                      (dict_set uuid8
                         (Room.mk uuid8 name host [] max_size active now None "")
                         (rooms s))
                      (dict_set uuid8 [] (participants s)) (db s))).
  { unfold r, create_room, insert_room. simpl.
    destruct (in_int64 max_size); simpl; [now rewrite E | reflexivity]. }
  rewrite Er. simpl. split; [reflexivity|]. split; [reflexivity|]. split; [|split].
  - unfold get_room. simpl. now rewrite dict_get_set_same.
  - apply dict_get_set_same.
  - intros k Hk. unfold get_room. simpl. now rewrite dict_get_set_other.
Qed.

Lemma create_room_collision_witness :
  let s := run [CreateRoom "Standup" "alice" 5 "1a2b3c4d" 1000;
                JoinRoom "1a2b3c4d" "bob" "p0000001" 2000;
                EndRoom "1a2b3c4d" "" 2500] (init empty_db) in
  let old := Room.mk "1a2b3c4d" "Standup" "alice" ["bob"] 5 ended 1000 (Some 2500) "" in
  let r := create_room s "Retro" "carol" 3 "1a2b3c4d" 3000 in
  reachable s /\
  dict_get "1a2b3c4d" (rooms s) = Some old /\
  in_int64 (Room.max_size old) = true /\
  fst r = Raise IntegrityError /\
  db (snd r) = db s /\
  get_room (snd r) "1a2b3c4d"
    = Some (mkSnapshot "1a2b3c4d" "Retro" "carol" [] 3 active 3000 None "" None).
Proof.
  intros s old r.
  assert (Hr : reachable s) by (exists empty_db; eexists; reflexivity).
  destruct (create_room_collision s "Retro" "carol" 3 "1a2b3c4d" 3000 old Hr
              eq_refl eq_refl) as (H1 & H2 & H3 & _).
  split; [exact Hr|]. split; [reflexivity|]. split; [reflexivity|].
  split; [exact H1|]. split; [exact H2 | exact H3].
Defined.

(** With a capacity that does not fit a signed 64-bit integer, [create_room]
    raises [OverflowError] and writes nothing to the store, but the room is
    in memory all the same: it can be looked up and is listed among the live
    meetings, and a later [end_room] on it returns [True] without any row of
    the store having its identifier, unless one was there before. *)
Theorem create_room_overflow s name host max_size uuid8 now url now' :
  reachable s ->
  in_int64 max_size = false ->
  let r := create_room s name host max_size uuid8 now in
  let snap := mkSnapshot uuid8 name host [] max_size active now None "" None in
  fst r = Raise OverflowError /\
  db (snd r) = db s /\
  get_room (snd r) uuid8 = Some snap /\
  In (Some snap) (get_active_rooms (snd r)) /\
  fst (end_room (snd r) uuid8 url now') = Ret true /\
  map rr_id (t_rooms (db (snd (end_room (snd r) uuid8 url now')))) =
    map rr_id (t_rooms (db s)).
Proof.
  intros Hr Hm r snap.
  pose proof (reachable_create s name host max_size uuid8 now Hr) as Hr'.
  fold r in Hr'.
  assert (Er : r = (Raise OverflowError,
                    mkServer
                      (dict_set uuid8
                         (Room.mk uuid8 name host [] max_size active now None "")
                         (rooms s))
                      (dict_set uuid8 [] (participants s)) (db s))).
  { unfold r, create_room, insert_room. simpl. now rewrite Hm. }
  assert (Hg : dict_get uuid8 (rooms (snd r)) =
               Some (Room.mk uuid8 name host [] max_size active now None "")).
  { rewrite Er. simpl. apply dict_get_set_same. }
  split; [now rewrite Er|]. split; [now rewrite Er|].
  split; [unfold get_room; now rewrite Hg|].
  split.
  - destruct (reachable_inv _ Hr') as (Hwf & _ & _).
    rewrite (get_active_rooms_wf _ Hwf).
    apply (in_map (fun room => Some (snapshot room)) _
                  (Room.mk uuid8 name host [] max_size active now None "")).
    apply filter_In. split; [|reflexivity].
    apply dict_get_In in Hg. unfold dict_values.
    now apply (in_map snd) in Hg.
  - unfold end_room. rewrite Hg. cbn [fst snd db].
    split; [reflexivity|].
    rewrite update_room_ended_ids. now rewrite Er.
Qed.

Lemma create_room_overflow_witness :
  let s := run [CreateRoom "Standup" "alice" 5 "1a2b3c4d" 1000] (init empty_db) in
  let r := create_room s "Retro" "carol" (2 ^ 63) "5e6f7a8b" 3000 in
  reachable s /\
  in_int64 (2 ^ 63) = false /\
  fst r = Raise OverflowError /\
  db (snd r) = db s /\
  fst (end_room (snd r) "5e6f7a8b" "" 4000) = Ret true /\
  map rr_id (t_rooms (db (snd (end_room (snd r) "5e6f7a8b" "" 4000)))) = ["1a2b3c4d"].
Proof.
  intros s r.
  assert (Hr : reachable s) by (exists empty_db; eexists; reflexivity).
  destruct (create_room_overflow s "Retro" "carol" (2 ^ 63) "5e6f7a8b" 3000 "" 4000
              Hr eq_refl) as (H1 & H2 & _ & _ & H5 & H6).
  split; [exact Hr|]. split; [reflexivity|]. split; [exact H1|].
  split; [exact H2|]. split; [exact H5 | exact H6].
Defined.

(** ** Calls on one room and the other rooms *)

Lemma step_rooms_other s c room_id :
  call_room c <> room_id ->
  dict_get room_id (rooms (snd (step s c))) = dict_get room_id (rooms s).
Proof.
  intros Hne. destruct c; simpl in Hne; simpl.
  - unfold create_room. destruct (insert_room _ _); simpl;
      now rewrite dict_get_set_other.
  - rewrite join_room_eq.
    destruct (dict_get room_id0 (rooms s)); simpl; auto.
    destruct (_ >=? _); simpl; auto.
    destruct (dict_get room_id0 (participants s)); simpl;
      now rewrite dict_get_set_other.
  - unfold leave_room.
    destruct (dict_get room_id0 (rooms s)); simpl; auto.
    destruct (negb _); simpl; auto. now rewrite dict_get_set_other.
  - unfold toggle_media.
    destruct (dict_get room_id0 (rooms s)); simpl; auto.
    destruct (dict_get room_id0 (participants s)); simpl; auto.
    destruct (toggle_first _ _ _ _); simpl; auto.
  - unfold end_room.
    destruct (dict_get room_id0 (rooms s)); simpl; auto.
    now rewrite dict_get_set_other.
Qed.

Lemma step_count_participants s c room_id :
  count_participants room_id (db (snd (step s c))) = count_participants room_id (db s).
Proof.
  rewrite count_participants_step, successful_joins_zero. lia.
Qed.

(** A call about one room changes neither what [get_room] nor what
    [room_stats] reports for any other room, whether the call returns or
    raises. *)
Theorem step_frame s c room_id :
  call_room c <> room_id ->
  get_room (snd (step s c)) room_id = get_room s room_id /\
  room_stats (snd (step s c)) room_id = room_stats s room_id.
Proof.
  intros Hne. unfold get_room, room_stats.
  now rewrite step_rooms_other, step_count_participants.
Qed.

Lemma step_frame_witness :
  let s := run [CreateRoom "Standup" "alice" 5 "1a2b3c4d" 1000;
                CreateRoom "Retro" "alice" 3 "5e6f7a8b" 1500;
                JoinRoom "1a2b3c4d" "bob" "p0000001" 2000] (init empty_db) in
  let c := EndRoom "5e6f7a8b" "https://rec/1" 3000 in
  call_room c <> "1a2b3c4d" /\
  get_room (snd (step s c)) "1a2b3c4d" = get_room s "1a2b3c4d" /\
  room_stats (snd (step s c)) "1a2b3c4d" = room_stats s "1a2b3c4d".
Proof.
  intros s c.
  assert (Hne : call_room c <> "1a2b3c4d") by (simpl; discriminate).
  split; [exact Hne | exact (step_frame s c "1a2b3c4d" Hne)].
Defined.

(** ** The life of a room *)

Lemma step_room s c room_id room :
  dict_get room_id (rooms s) = Some room ->
  exists room',
    dict_get room_id (rooms (snd (step s c))) = Some room' /\
    (recreates room_id c = false ->
     Room.id room' = Room.id room /\ Room.name room' = Room.name room /\
     Room.host room' = Room.host room /\ Room.max_size room' = Room.max_size room /\
     Room.created_at room' = Room.created_at room /\
     (Room.status room = ended -> Room.status room' = ended)).
Proof.
  intros Hg.
  destruct (string_dec (call_room c) room_id) as [E|Hne].
  - destruct c; simpl in E; subst; simpl.
    + unfold create_room. rewrite String.eqb_refl.
      destruct (insert_room _ _); simpl; rewrite dict_get_set_same;
        eexists; (split; [reflexivity | discriminate]).
    + rewrite join_room_eq, Hg.
      destruct (_ >=? _); simpl; [eauto 10|].
      destruct (dict_get room_id (participants s)); simpl;
        rewrite dict_get_set_same; eexists; (split; [reflexivity|]); simpl; auto 10.
    + unfold leave_room. rewrite Hg.
      destruct (negb _); simpl; [eauto 10|].
      rewrite dict_get_set_same. eexists. split; [reflexivity|]. simpl. auto 10.
    + unfold toggle_media. rewrite Hg.
      destruct (dict_get room_id (participants s)); simpl; [|eauto 10].
      destruct (toggle_first _ _ _ _); simpl; eauto 10.
    + unfold end_room. rewrite Hg. simpl.
      rewrite dict_get_set_same. eexists. split; [reflexivity|]. simpl. auto 10.
  - rewrite (step_rooms_other s c room_id Hne). eauto 10.
Qed.

(** No call removes a room: a room the server knows stays known after any
    sequence of calls. *)
Theorem room_never_deleted cs s room_id :
  dict_get room_id (rooms s) <> None ->
  dict_get room_id (rooms (run cs s)) <> None.
Proof.
  revert s. induction cs as [|c cs IH]; intros s Hk; simpl; auto.
  apply IH. destruct (dict_get room_id (rooms s)) as [room|] eqn:Hg; [|congruence].
  destruct (step_room s c room_id room Hg) as (room' & -> & _). discriminate.
Qed.

Lemma room_never_deleted_witness :
  let s := run [CreateRoom "Standup" "alice" 5 "1a2b3c4d" 1000] (init empty_db) in
  let cs := [JoinRoom "1a2b3c4d" "bob" "p0000001" 2000;
             LeaveRoom "1a2b3c4d" "bob" 2500;
             EndRoom "1a2b3c4d" "" 3000;
             CreateRoom "Retro" "alice" 3 "1a2b3c4d" 4000] in
  dict_get "1a2b3c4d" (rooms s) <> None /\
  dict_get "1a2b3c4d" (rooms (run cs s)) <> None.
Proof.
  intros s cs.
  assert (Hk : dict_get "1a2b3c4d" (rooms s) <> None) by (simpl; discriminate).
  split; [exact Hk | exact (room_never_deleted cs s "1a2b3c4d" Hk)].
Defined.

Lemma run_room_fields cs s room_id room :
  dict_get room_id (rooms s) = Some room ->
  forallb (fun c => negb (recreates room_id c)) cs = true ->
  exists room',
    dict_get room_id (rooms (run cs s)) = Some room' /\
    Room.id room' = Room.id room /\ Room.name room' = Room.name room /\
    Room.host room' = Room.host room /\ Room.max_size room' = Room.max_size room /\
    Room.created_at room' = Room.created_at room /\
    (Room.status room = ended -> Room.status room' = ended).
Proof.
  revert s room. induction cs as [|c cs IH]; intros s room Hg Hcs; simpl.
  - eauto 10.
  - simpl in Hcs. apply andb_true_iff in Hcs as [Hc Hcs].
    apply negb_true_iff in Hc.
    destruct (step_room s c room_id room Hg) as (room1 & Hg1 & H1).
    destruct (H1 Hc) as (Hi & Hn & Hh & Hm & Ht & Hs).
    destruct (IH _ room1 Hg1 Hcs) as (room' & Hg' & Hi' & Hn' & Hh' & Hm' & Ht' & Hs').
    exists room'. repeat split; try congruence. auto.
Qed.


(** As long as no [create_room] draws the identifier of a room again, the
    room keeps its identifier, name, host, capacity and creation time through
    any sequence of calls, and once its status is [ended] it stays [ended]:
    joins, leaves and further [end_room] calls never reopen it. *)
Theorem room_fields_stable cs s room_id room :
  dict_get room_id (rooms s) = Some room ->
  forallb (fun c => negb (recreates room_id c)) cs = true ->
  exists room',
    dict_get room_id (rooms (run cs s)) = Some room' /\
    Room.id room' = Room.id room /\ Room.name room' = Room.name room /\
    Room.host room' = Room.host room /\ Room.max_size room' = Room.max_size room /\
    Room.created_at room' = Room.created_at room /\
    (Room.status room = ended -> Room.status room' = ended).
Proof.
  apply run_room_fields.
Qed.

Lemma room_fields_stable_witness :
  let s := run [CreateRoom "Standup" "alice" 5 "1a2b3c4d" 1000;
                EndRoom "1a2b3c4d" "" 1500] (init empty_db) in
  let room := Room.mk "1a2b3c4d" "Standup" "alice" [] 5 ended 1000 (Some 1500) "" in
  let cs := [JoinRoom "1a2b3c4d" "bob" "p0000001" 2000;
             LeaveRoom "1a2b3c4d" "bob" 2500;
             CreateRoom "Retro" "alice" 3 "5e6f7a8b" 2700;
             EndRoom "1a2b3c4d" "https://rec/1" 3000] in
  dict_get "1a2b3c4d" (rooms s) = Some room /\
  forallb (fun c => negb (recreates "1a2b3c4d" c)) cs = true /\
  exists room',
    dict_get "1a2b3c4d" (rooms (run cs s)) = Some room' /\
    Room.name room' = "Standup" /\ Room.created_at room' = 1000 /\
    Room.status room' = ended.
Proof.
  intros s room cs.
  destruct (room_fields_stable cs s "1a2b3c4d" room eq_refl eq_refl)
    as (room' & Hg & _ & Hn & _ & _ & Ht & Hs).
  split; [reflexivity|]. split; [reflexivity|].
  exists room'. split; [exact Hg|]. split; [exact Hn|]. split; [exact Ht|].
  exact (Hs eq_refl).
Defined.

(** ** [end_room] *)

(** Ending a room twice is the same as ending it once with the arguments of
    the second call: the second call returns the same value and overwrites
    the end time and the recording URL, in memory and in the store. *)
Theorem end_room_twice s room_id url1 now1 url2 now2 :
  end_room (snd (end_room s room_id url1 now1)) room_id url2 now2 =
  end_room s room_id url2 now2.
Proof.
  unfold end_room at 2 3.
  destruct (dict_get room_id (rooms s)) as [room|] eqn:Hg; simpl.
  - unfold end_room. simpl. rewrite dict_get_set_same, dict_set_set.
    f_equal. f_equal. unfold update_room_ended. simpl. f_equal.
    rewrite map_map. apply map_ext. intros r.
    destruct (String.eqb (rr_id r) room_id) eqn:E; simpl; now rewrite E.
  - unfold end_room. now rewrite Hg.
Qed.

(** ** The live meetings *)

(** In a reachable server [get_active_rooms] holds no [None]: it is the list
    of the snapshots of exactly the rooms whose status is [active], each room
    once, every one of them without end time and without duration. *)
Theorem get_active_rooms_spec s :
  reachable s ->
  exists l,
    get_active_rooms s = map Some l /\
    (forall x,
        In x l <->
        exists k room,
          In (k, room) (rooms s) /\ Room.status room = active /\ x = snapshot room) /\
    NoDup (map s_id l) /\
    Forall (fun x => s_status x = active /\ s_ended_at x = None /\
                     s_duration_minutes x = None) l.
Proof.
  intros Hr. destruct (reachable_inv s Hr) as (Hwf & _ & Hri).
  set (sel := filter (fun room => Status_eqb (Room.status room) active)
                     (dict_values (rooms s))).
  assert (Hsel : forall room,
             In room sel <->
             exists k, In (k, room) (rooms s) /\ Room.status room = active).
  { intros room. unfold sel. rewrite filter_In. unfold dict_values.
    rewrite in_map_iff. split.
    - intros (([k r] & E & Hin) & Ha). simpl in E. subst r.
      exists k. split; auto. now destruct (Room.status room).
    - intros (k & Hin & Ha). split; [exists (k, room); auto | now rewrite Ha]. }
  exists (map snapshot sel). split; [|split; [|split]].
  - rewrite (get_active_rooms_wf s Hwf). fold sel. now rewrite map_map.
  - intros x. rewrite in_map_iff. split.
    + intros (room & <- & Hin). apply Hsel in Hin as (k & Hin & Ha). eauto.
    + intros (k & room & Hin & Ha & ->). exists room. split; auto.
      apply Hsel. eauto.
  - rewrite map_map. simpl. apply (NoDup_map_filter Room.id).
    rewrite (wf_ids s Hwf). now destruct Hwf as (_ & Hnd & _).
  - rewrite Forall_forall. intros x Hx.
    apply in_map_iff in Hx as (room & <- & Hin).
    apply Hsel in Hin as (k & Hin & Ha).
    rewrite Forall_forall in Hri. destruct (Hri _ Hin) as [_ Hend]. simpl in Hend.
    assert (He : Room.ended_at room = None).
    { destruct (Room.ended_at room) eqn:E; auto.
      assert (Room.status room = ended) by (apply Hend; discriminate). congruence. }
    unfold snapshot. simpl. now rewrite He.
Qed.

Lemma get_active_rooms_spec_witness :
  let s := run [CreateRoom "Standup" "alice" 5 "1a2b3c4d" 1000;
                CreateRoom "Retro" "alice" 3 "5e6f7a8b" 1500;
                EndRoom "1a2b3c4d" "" 2000] (init empty_db) in
  reachable s /\
  exists l,
    get_active_rooms s = map Some l /\
    Forall (fun x => s_status x = active /\ s_ended_at x = None /\
                     s_duration_minutes x = None) l.
Proof.
  intros s.
  assert (Hr : reachable s) by (exists empty_db; eexists; reflexivity).
  split; [exact Hr|].
  destruct (get_active_rooms_spec s Hr) as (l & Hl & _ & _ & Hf).
  exists l. auto.
Defined.

(** After [end_room] has returned on a room, the room is not among the live
    meetings, and it does not come back through any later sequence of calls
    in which no [create_room] draws its identifier again. *)
Theorem ended_room_not_active s room_id url now cs :
  reachable s ->
  dict_get room_id (rooms s) <> None ->
  forallb (fun c => negb (recreates room_id c)) cs = true ->
  fst (end_room s room_id url now) = Ret true /\
  forall x,
    In (Some x) (get_active_rooms (run cs (snd (end_room s room_id url now)))) ->
    s_id x <> room_id.
Proof.
  intros Hr Hk Hcs.
  destruct (dict_get room_id (rooms s)) as [room|] eqn:Hg; [|congruence].
  assert (Ee : end_room s room_id url now =
               (Ret true,
                mkServer (dict_set room_id (Room.finish room now url) (rooms s))
                         (participants s)
                         (update_room_ended now url room_id (db s)))).
  { unfold end_room. now rewrite Hg. }
  split; [now rewrite Ee|].
  set (s1 := snd (end_room s room_id url now)).
  assert (Hr1 : reachable s1).
  { pose proof (reachable_step s (EndRoom room_id url now) Hr) as H.
    simpl in H. now rewrite snd_lift in H. }
  assert (Hg1 : dict_get room_id (rooms s1) = Some (Room.finish room now url)).
  { unfold s1. rewrite Ee. simpl. apply dict_get_set_same. }
  destruct (run_room_fields cs s1 room_id _ Hg1 Hcs)
    as (room' & Hg' & _ & _ & _ & _ & _ & Hs).
  specialize (Hs eq_refl).
  assert (Hr' : reachable (run cs s1)).
  { destruct Hr1 as (d & cs0 & E). exists d, (cs0 ++ cs).
    now rewrite run_app, <- E. }
  destruct (reachable_inv _ Hr') as (Hwf & _ & _).
  intros x Hx Hid.
  rewrite (get_active_rooms_wf _ Hwf) in Hx.
  apply in_map_iff in Hx as (r & Ex & Hin). injection Ex as <-.
  apply filter_In in Hin as [Hin Ha].
  unfold dict_values in Hin. apply in_map_iff in Hin as ([k r'] & E & Hin).
  simpl in E. subst r'.
  destruct Hwf as (Hids & Hnd & _).
  rewrite Forall_forall in Hids. pose proof (Hids _ Hin) as Hkid.
  simpl in Hkid, Hid. rewrite <- Hkid in Hid. subst k.
  apply (In_dict_get _ _ _ Hnd) in Hin. rewrite Hg' in Hin.
  injection Hin as <-. now rewrite Hs in Ha.
Qed.

Lemma ended_room_not_active_witness :
  let s := run [CreateRoom "Standup" "alice" 5 "1a2b3c4d" 1000;
                CreateRoom "Retro" "alice" 3 "5e6f7a8b" 1500] (init empty_db) in
  let cs := [JoinRoom "1a2b3c4d" "bob" "p0000001" 3000;
             LeaveRoom "1a2b3c4d" "bob" 3500] in
  reachable s /\
  dict_get "1a2b3c4d" (rooms s) <> None /\
  forallb (fun c => negb (recreates "1a2b3c4d" c)) cs = true /\
  fst (end_room s "1a2b3c4d" "" 2000) = Ret true /\
  forall x,
    In (Some x) (get_active_rooms (run cs (snd (end_room s "1a2b3c4d" "" 2000)))) ->
    s_id x <> "1a2b3c4d".
Proof.
  intros s cs.
  assert (Hr : reachable s) by (exists empty_db; eexists; reflexivity).
  assert (Hk : dict_get "1a2b3c4d" (rooms s) <> None) by (simpl; discriminate).
  split; [exact Hr|]. split; [exact Hk|]. split; [reflexivity|].
  exact (ended_room_not_active s "1a2b3c4d" "" 2000 cs Hr Hk eq_refl).
Defined.

(** No room is at once a live meeting and part of a user's history. *)
Theorem active_not_in_history s user n x h :
  reachable s ->
  In (Some x) (get_active_rooms s) ->
  get_user_history s user n = Ret h ->
  ~ In (s_id x) (map s_id h).
Proof.
  intros Hr Hx Hh. destruct (reachable_inv s Hr) as (Hwf & _ & _).
  rewrite (get_active_rooms_wf s Hwf) in Hx.
  rewrite (get_user_history_wf s user n Hwf) in Hh. injection Hh as <-.
  apply in_map_iff in Hx as (r & Ex & Hin). injection Ex as <-.
  apply filter_In in Hin as [Hin Ha].
  intros Hbad. apply in_map_iff in Hbad as (y & Hid & Hy).
  apply In_slice_to in Hy.
  apply Permutation_in with (l' := map snapshot
          (filter (in_history user) (dict_values (rooms s)))) in Hy;
    [|symmetry; apply sorted_desc_perm].
  apply in_map_iff in Hy as (r' & <- & Hsel).
  apply filter_In in Hsel as [Hin' Hh'].
  apply in_history_spec in Hh' as [_ Hs'].
  simpl in Hid.
  assert (E : r' = r).
  { destruct Hwf as (Hids & Hnd & _). unfold dict_values in *.
    apply in_map_iff in Hin as ([k1 r1] & E1 & Hin1).
    apply in_map_iff in Hin' as ([k2 r2] & E2 & Hin2).
    simpl in E1, E2. subst r1 r2.
    rewrite Forall_forall in Hids.
    pose proof (Hids _ Hin1) as Hk1. pose proof (Hids _ Hin2) as Hk2.
    simpl in Hk1, Hk2.
    apply (In_dict_get _ _ _ Hnd) in Hin1. apply (In_dict_get _ _ _ Hnd) in Hin2.
    assert (k1 = k2) by congruence. subst k2. congruence. }
  subst r'. now rewrite Hs' in Ha.
Qed.

Lemma active_not_in_history_witness :
  let s := run [CreateRoom "Standup" "alice" 5 "1a2b3c4d" 1000;
                CreateRoom "Retro" "alice" 3 "5e6f7a8b" 1500;
                JoinRoom "1a2b3c4d" "bob" "p0000001" 1600;
                JoinRoom "5e6f7a8b" "bob" "p0000002" 1700;
                EndRoom "1a2b3c4d" "" 2000] (init empty_db) in
  let x := mkSnapshot "5e6f7a8b" "Retro" "alice" ["bob"] 3 active 1500 None "" None in
  let h := [mkSnapshot "1a2b3c4d" "Standup" "alice" ["bob"] 5 ended 1000 (Some 2000)
                       "" (Some 0)] in
  reachable s /\
  In (Some x) (get_active_rooms s) /\
  get_user_history s "bob" 10 = Ret h /\
  ~ In (s_id x) (map s_id h).
Proof.
  intros s x h.
  assert (Hr : reachable s) by (exists empty_db; eexists; reflexivity).
  assert (Hx : In (Some x) (get_active_rooms s)) by (left; reflexivity).
  assert (Hh : get_user_history s "bob" 10 = Ret h) by reflexivity.
  split; [exact Hr|]. split; [exact Hx|]. split; [exact Hh|].
  exact (active_not_in_history s "bob" 10 x h Hr Hx Hh).
Defined.

(** ** [room_stats] *)

(** [room_stats] reports the present length of the list that [get_room]
    shows, not a peak: after a [leave_room] that returns [True] the reported
    [peak_participants] is one less, with the duration and the join events
    unchanged.  Its duration is that of [get_room], or 0 where [get_room] has
    none. *)
Theorem room_stats_peak_is_current s room_id user now room :
  dict_get room_id (rooms s) = Some room ->
  In user (Room.participants room) ->
  exists snap st st',
    get_room s room_id = Some snap /\
    room_stats s room_id = Some st /\
    peak_participants st = Z.of_nat (length (s_participants snap)) /\
    duration_min st =
      match s_duration_minutes snap with Some m => m | None => 0 end /\
    fst (leave_room s room_id user now) = Ret true /\
    room_stats (snd (leave_room s room_id user now)) room_id = Some st' /\
    peak_participants st' = peak_participants st - 1 /\
    duration_min st' = duration_min st /\
    join_events st' = join_events st.
Proof.
  intros Hg Hin.
  pose proof (length_list_remove_In _ _ Hin) as Hlen.
  apply list_in_In in Hin.
  unfold get_room, room_stats, leave_room. rewrite Hg, Hin. simpl.
  rewrite dict_get_set_same. do 3 eexists.
  repeat split; simpl.
  - now destruct (Room.ended_at room).
  - lia.
  - apply count_participants_update_left_at.
Qed.

Lemma room_stats_peak_is_current_witness :
  let s := run [CreateRoom "Standup" "alice" 5 "1a2b3c4d" 1000;
                JoinRoom "1a2b3c4d" "bob" "p0000001" 2000;
                JoinRoom "1a2b3c4d" "carol" "p0000002" 2100] (init empty_db) in
  let room := Room.mk "1a2b3c4d" "Standup" "alice" ["bob"; "carol"] 5 active 1000
                      None "" in
  dict_get "1a2b3c4d" (rooms s) = Some room /\
  In "bob" (Room.participants room) /\
  exists st st',
    room_stats s "1a2b3c4d" = Some st /\
    room_stats (snd (leave_room s "1a2b3c4d" "bob" 3000)) "1a2b3c4d" = Some st' /\
    peak_participants st' = peak_participants st - 1.
Proof.
  intros s room.
  assert (Hin : In "bob" (Room.participants room)) by (simpl; auto).
  split; [reflexivity|]. split; [exact Hin|].
  destruct (room_stats_peak_is_current s "1a2b3c4d" "bob" 3000 room eq_refl Hin)
    as (snap & st & st' & _ & H1 & _ & _ & _ & H2 & H3 & _).
  exists st, st'. auto.
Defined.

(** ** The store *)

Lemma step_room_ids s c :
  map rr_id (t_rooms (db (snd (step s c)))) = map rr_id (t_rooms (db s)) \/
  exists u,
    ~ In u (map rr_id (t_rooms (db s))) /\
    map rr_id (t_rooms (db (snd (step s c)))) = map rr_id (t_rooms (db s)) ++ [u].
Proof.
  destruct c; simpl.
  - unfold create_room, insert_room. simpl.
    destruct (negb (in_int64 max_size)); simpl; auto.
    destruct (existsb _ (t_rooms (db s))) eqn:E; simpl; auto.
    right. exists uuid8. split.
    + intros H. apply existsb_rr_id in H. congruence.
    + now rewrite map_app.
  - rewrite join_room_eq.
    destruct (dict_get room_id (rooms s)); simpl; auto.
    destruct (_ >=? _); simpl; auto.
    destruct (dict_get room_id (participants s)); simpl; auto.
  - unfold leave_room.
    destruct (dict_get room_id (rooms s)); simpl; auto.
    destruct (negb _); simpl; auto.
  - unfold toggle_media.
    destruct (dict_get room_id (rooms s)); simpl; auto.
    destruct (dict_get room_id (participants s)); simpl; auto.
    destruct (toggle_first _ _ _ _); simpl; auto.
  - unfold end_room.
    destruct (dict_get room_id (rooms s)); simpl; auto.
    left. pose proof (update_room_ended_ids now recording_url room_id (db s)) as E.
    unfold update_room_ended in E. simpl in E. exact E.
Qed.

(** The [rooms] table keeps its primary key: if the identifiers of its rows
    are distinct when the server starts, they are distinct after any sequence
    of calls, and no identifier ever leaves the table. *)
Theorem store_room_ids cs s :
  NoDup (map rr_id (t_rooms (db s))) ->
  NoDup (map rr_id (t_rooms (db (run cs s)))) /\
  incl (map rr_id (t_rooms (db s))) (map rr_id (t_rooms (db (run cs s)))).
Proof.
  revert s. induction cs as [|c cs IH]; intros s Hnd; simpl.
  - split; [exact Hnd | apply incl_refl].
  - destruct (step_room_ids s c) as [E|(u & Hu & E)].
    + rewrite <- E in Hnd. destruct (IH _ Hnd) as [H1 H2].
      split; auto. now rewrite <- E.
    + assert (Hnd' : NoDup (map rr_id (t_rooms (db (snd (step s c)))))).
      { rewrite E. apply NoDup_app; auto.
        - repeat constructor. simpl. tauto.
        - intros x Hx [<-|[]]. contradiction. }
      destruct (IH _ Hnd') as [H1 H2]. split; auto.
      intros x Hx. apply H2. rewrite E. apply in_or_app. now left.
Qed.

Lemma store_room_ids_witness :
  let d := mkDB [mkRoomRow "0000aaaa" "Old" "zed" 2 ended 10 (Some 20) ""] [] in
  let cs := [CreateRoom "Standup" "alice" 5 "1a2b3c4d" 1000;
             CreateRoom "Retro" "alice" 3 "0000aaaa" 1500;
             EndRoom "1a2b3c4d" "" 2000] in
  NoDup (map rr_id (t_rooms (db (init d)))) /\
  NoDup (map rr_id (t_rooms (db (run cs (init d))))) /\
  incl (map rr_id (t_rooms (db (init d)))) (map rr_id (t_rooms (db (run cs (init d))))).
Proof.
  intros d cs.
  assert (Hnd : NoDup (map rr_id (t_rooms (db (init d))))).
  { simpl. repeat constructor. simpl. tauto. }
  split; [exact Hnd | exact (store_room_ids cs (init d) Hnd)].
Defined.

(** After [end_room] on a room of a reachable server whose capacity fits a
    signed 64-bit integer, the store has a row for the room; and for any
    known room, every row with its identifier has status [ended], the time
    of the call as end time and the recording URL of the call, while the
    rows of the other rooms and the sessions are as before. *)
Theorem end_room_stored s room_id room url now :
  reachable s ->
  dict_get room_id (rooms s) = Some room ->
  let s' := snd (end_room s room_id url now) in
  (in_int64 (Room.max_size room) = true ->
   exists row, In row (t_rooms (db s')) /\ rr_id row = room_id) /\
  (forall row,
      In row (t_rooms (db s')) ->
      rr_id row = room_id ->
      rr_status row = ended /\ rr_ended_at row = Some now /\
      rr_recording_url row = url) /\
  (forall row,
      rr_id row <> room_id ->
      (In row (t_rooms (db s')) <-> In row (t_rooms (db s)))) /\
  t_participants (db s') = t_participants (db s).
Proof.
  intros Hr Hg s'.
  assert (Es : s' = mkServer (dict_set room_id (Room.finish room now url) (rooms s))
                             (participants s)
                             (update_room_ended now url room_id (db s))).
  { unfold s', end_room. now rewrite Hg. }
  rewrite Es. simpl. split; [|split; [|split]]; auto.
  - intros Hm.
    assert (Hin : In room_id (map rr_id (t_rooms (db s)))).
    { apply (reachable_stored s Hr room_id room); auto. now apply dict_get_In. }
    apply in_map_iff in Hin as (row & Hid & Hin).
    eexists. split.
    + apply in_map_iff. exists row. split; [reflexivity | exact Hin].
    + simpl. now destruct (String.eqb (rr_id row) room_id).
  - intros row Hin Hid. apply in_map_iff in Hin as (row0 & E & Hin).
    destruct (String.eqb_spec (rr_id row0) room_id) as [E0|E0]; subst row; simpl; auto.
    congruence.
  - intros row Hne. rewrite in_map_iff. split.
    + intros (row0 & E & Hin).
      destruct (String.eqb_spec (rr_id row0) room_id) as [E0|E0]; subst row; auto.
      simpl in Hne. congruence.
    + intros Hin. exists row. split; auto.
      destruct (String.eqb_spec (rr_id row) room_id); congruence.
Qed.

Lemma end_room_stored_witness :
  let s := run [CreateRoom "Standup" "alice" 5 "1a2b3c4d" 1000;
                CreateRoom "Retro" "alice" 3 "5e6f7a8b" 1500] (init empty_db) in
  let room := Room.mk "1a2b3c4d" "Standup" "alice" [] 5 active 1000 None "" in
  let s' := snd (end_room s "1a2b3c4d" "https://rec/1" 2000) in
  reachable s /\
  dict_get "1a2b3c4d" (rooms s) = Some room /\
  in_int64 (Room.max_size room) = true /\
  (exists row, In row (t_rooms (db s')) /\ rr_id row = "1a2b3c4d") /\
  (forall row,
      In row (t_rooms (db s')) ->
      rr_id row = "1a2b3c4d" ->
      rr_status row = ended /\ rr_ended_at row = Some 2000 /\
      rr_recording_url row = "https://rec/1").
Proof.
  intros s room s'.
  assert (Hr : reachable s) by (exists empty_db; eexists; reflexivity).
  destruct (end_room_stored s "1a2b3c4d" room "https://rec/1" 2000 Hr eq_refl)
    as (H1 & H2 & _).
  split; [exact Hr|]. split; [reflexivity|]. split; [reflexivity|].
  split; [exact (H1 eq_refl) | exact H2].
Defined.

(** ** The sessions in the store *)

Lemma session_evolves_refl r : session_evolves r r.
Proof.
  unfold session_evolves. tauto.
Qed.

Lemma session_evolves_trans r1 r2 r3 :
  session_evolves r1 r2 -> session_evolves r2 r3 -> session_evolves r1 r3.
Proof.
  unfold session_evolves.
  intros (A1 & A2 & A3 & A4 & A5 & A6 & A7) (B1 & B2 & B3 & B4 & B5 & B6 & B7).
  repeat split; try congruence.
  destruct A7 as [A7|[A7 A8]], B7 as [B7|[B7 B8]].
  - left. congruence.
  - right. split; congruence.
  - right. split; congruence.
  - congruence.
Qed.

Lemma Forall2_session_refl rows : Forall2 session_evolves rows rows.
Proof.
  induction rows; constructor; auto using session_evolves_refl.
Qed.

Lemma Forall2_session_trans l1 : forall l2 l3,
  Forall2 session_evolves l1 l2 -> Forall2 session_evolves l2 l3 ->
  Forall2 session_evolves l1 l3.
Proof.
  induction l1 as [|r1 l1 IH]; intros l2 l3 H12 H23.
  - inversion H12; subst. inversion H23; subst. constructor.
  - inversion H12 as [|? r2 ? l2' Hr12 Hl12]; subst.
    inversion H23 as [|? r3 ? l3' Hr23 Hl23]; subst.
    constructor; eauto using session_evolves_trans.
Qed.

Lemma step_sessions s c :
  Forall2 session_evolves (t_participants (db s))
          (t_participants (db (snd (step s c)))).
Proof.
  destruct c; simpl.
  - unfold create_room, insert_room. simpl.
    destruct (negb (in_int64 max_size)); [|destruct (existsb _ (t_rooms (db s)))];
      simpl; apply Forall2_session_refl.
  - rewrite join_room_eq.
    destruct (dict_get room_id (rooms s)); simpl; [|apply Forall2_session_refl].
    destruct (_ >=? _); simpl; [apply Forall2_session_refl|].
    destruct (dict_get room_id (participants s)); simpl; apply Forall2_session_refl.
  - unfold leave_room.
    destruct (dict_get room_id (rooms s)); simpl; [|apply Forall2_session_refl].
    destruct (negb _); simpl; [apply Forall2_session_refl|].
    induction (t_participants (db s)) as [|r rows IH]; simpl; constructor; auto.
    unfold open_session.
    destruct (pr_left_at r) eqn:El;
      [rewrite andb_false_r; apply session_evolves_refl|].
    destruct (_ && _); [|apply session_evolves_refl].
    unfold session_evolves. simpl. repeat split; auto.
    right. split; [exact El | discriminate].
  - unfold toggle_media.
    destruct (dict_get room_id (rooms s)); simpl; [|apply Forall2_session_refl].
    destruct (dict_get room_id (participants s)); simpl; [|apply Forall2_session_refl].
    destruct (toggle_first _ _ _ _); simpl; apply Forall2_session_refl.
  - unfold end_room.
    destruct (dict_get room_id (rooms s)); simpl; apply Forall2_session_refl.
Qed.

(** Through any sequence of calls the [participants] table keeps its rows,
    one for one and in order: no call inserts or deletes a session, and a
    row changes only by getting a leave time where it had none.  A session
    that has a leave time is never touched again, and [toggle_media] never
    reaches the stored camera and mic flags. *)
Theorem sessions_only_close cs s :
  Forall2 session_evolves (t_participants (db s))
          (t_participants (db (run cs s))).
Proof.
  revert s. induction cs as [|c cs IH]; intros s; simpl.
  - apply Forall2_session_refl.
  - eapply Forall2_session_trans; [apply step_sessions | apply IH].
Qed.

(** ** A failed join and a leave *)

(** A [join_room] that fails with [TypeError] has put the user on the list;
    if the user was not on it before, a [leave_room] for that user then
    returns [True] and gives back the rooms and the participant sets the
    server had before the join. *)
Theorem failed_join_then_leave s room_id user uuid8 now now' room :
  reachable s ->
  dict_get room_id (rooms s) = Some room ->
  Z.of_nat (length (Room.participants room)) < Room.max_size room ->
  ~ In user (Room.participants room) ->
  let r1 := join_room s room_id user uuid8 now in
  let r2 := leave_room (snd r1) room_id user now' in
  fst r1 = Raise TypeError /\
  fst r2 = Ret true /\
  rooms (snd r2) = rooms s /\
  participants (snd r2) = participants s /\
  t_rooms (db (snd r2)) = t_rooms (db s).
Proof.
  intros Hr Hg Hlt Hnot r1 r2.
  assert (E1 : r1 = (Raise TypeError,
                     mkServer (dict_set room_id (Room.append room user) (rooms s))
                              (participants s) (db s))).
  { unfold r1. now apply join_room_below_capacity. }
  assert (Hin : list_in user (Room.participants (Room.append room user)) = true).
  { apply list_in_In. simpl. apply in_or_app. right. now left. }
  assert (E2 : r2 = (Ret true,
                     mkServer (dict_set room_id
                                 (Room.remove (Room.append room user) user)
                                 (rooms (snd r1)))
                              (participants (snd r1))
                              (update_left_at now' room_id user (db (snd r1))))).
  { unfold r2, leave_room. rewrite E1. simpl.
    rewrite dict_get_set_same. now rewrite Hin. }
  rewrite E2, E1. simpl. repeat split.
  rewrite dict_set_set. apply dict_set_unchanged. rewrite Hg. f_equal.
  unfold Room.remove, Room.append. simpl.
  rewrite (list_remove_app_last _ _ Hnot). now destruct room.
Qed.

Lemma failed_join_then_leave_witness :
  let s := run [CreateRoom "Standup" "alice" 5 "1a2b3c4d" 1000;
                JoinRoom "1a2b3c4d" "carol" "p0000001" 1500] (init empty_db) in
  let room := Room.mk "1a2b3c4d" "Standup" "alice" ["carol"] 5 active 1000 None "" in
  let r1 := join_room s "1a2b3c4d" "bob" "p0000002" 2000 in
  let r2 := leave_room (snd r1) "1a2b3c4d" "bob" 3000 in
  reachable s /\
  dict_get "1a2b3c4d" (rooms s) = Some room /\
  Z.of_nat (length (Room.participants room)) < Room.max_size room /\
  ~ In "bob" (Room.participants room) /\
  fst r1 = Raise TypeError /\
  fst r2 = Ret true /\
  rooms (snd r2) = rooms s.
Proof.
  intros s room r1 r2.
  assert (Hr : reachable s) by (exists empty_db; eexists; reflexivity).
  assert (Hlt : Z.of_nat (length (Room.participants room)) < Room.max_size room)
    by (simpl; lia).
  assert (Hnot : ~ In "bob" (Room.participants room)).
  { simpl. intros [H|[]]. discriminate. }
  destruct (failed_join_then_leave s "1a2b3c4d" "bob" "p0000002" 2000 3000 room
              Hr eq_refl Hlt Hnot) as (H1 & H2 & H3 & _).
  split; [exact Hr|]. split; [reflexivity|]. split; [exact Hlt|].
  split; [exact Hnot|]. split; [exact H1|]. split; [exact H2 | exact H3].
Defined.

(** ** The bound of [get_user_history] *)

(** In a reachable server [get_user_history] never raises, whatever the
    bound.  Let the whole history of the user be the list, fixed up to the
    order of rooms created at the same time, of the snapshots of exactly the
    ended rooms that still list the user, each room once.  The result for a
    bound [n] is a prefix of it: of [min (n, length)] entries when [n] is not
    negative, and for a negative [n] of all but the last [-n] entries, so of
    none when [-n] is at least the length. *)
Theorem get_user_history_bound s user :
  reachable s ->
  exists full,
    (forall x,
        In x full <->
        exists k room,
          In (k, room) (rooms s) /\
          Room.status room = ended /\
          In user (Room.participants room) /\
          x = snapshot room) /\
    NoDup (map s_id full) /\
    forall n,
      exists h,
        get_user_history s user n = Ret h /\
        h = firstn (length h) full /\
        Z.of_nat (length h) =
          if 0 <=? n then Z.min n (Z.of_nat (length full))
          else Z.max 0 (Z.of_nat (length full) + n).
Proof.
  intros Hr. destruct (reachable_inv s Hr) as (Hwf & _ & _).
  destruct (whole_history_spec s user Hwf) as (Hin & Hnd & _).
  set (full := sorted_desc (map snapshot
                 (filter (in_history user) (dict_values (rooms s))))) in *.
  exists full. split; [exact Hin|]. split; [exact Hnd|].
  intros n. exists (slice_to n full).
  split; [apply get_user_history_wf; exact Hwf|].
  assert (Hf : forall k, firstn k full = firstn (length (firstn k full)) full).
  { intros k. rewrite length_firstn.
    rewrite <- (firstn_all full) at 1. now rewrite firstn_firstn. }
  unfold slice_to. destruct (Z.leb_spec 0 n); split; auto;
    rewrite length_firstn; lia.
Qed.

Lemma get_user_history_bound_witness :
  let s := run [CreateRoom "Standup" "alice" 5 "aaaaaaaa" 1000;
                CreateRoom "Retro" "alice" 5 "bbbbbbbb" 2000;
                JoinRoom "aaaaaaaa" "bob" "p0000001" 4000;
                JoinRoom "bbbbbbbb" "bob" "p0000002" 4100;
                EndRoom "aaaaaaaa" "" 5000;
                EndRoom "bbbbbbbb" "" 6000] (init empty_db) in
  reachable s /\
  exists full,
    NoDup (map s_id full) /\
    exists h,
      get_user_history s "bob" (-1) = Ret h /\
      Z.of_nat (length h) = Z.max 0 (Z.of_nat (length full) + (-1)).
Proof.
  intros s.
  assert (Hr : reachable s) by (exists empty_db; eexists; reflexivity).
  split; [exact Hr|].
  destruct (get_user_history_bound s "bob" Hr) as (full & _ & Hnd & Hn).
  exists full. split; [exact Hnd|].
  destruct (Hn (-1)) as (h & H1 & _ & H3).
  exists h. auto.
Defined.

(** ** The command line *)

Lemma nth_error_length_lt {A : Type} (l : list A) i x :
  nth_error l i = Some x -> (length l <? S i)%nat = false.
Proof.
  intros H. apply Nat.ltb_ge.
  assert (i < length l)%nat by (apply nth_error_Some; congruence). lia.
Qed.

(** Each run of the script starts a server with no room in memory, so the
    [join] command cannot succeed: with both arguments present it prints the
    failure message for the room and ends normally, with an argument missing
    it dies of [IndexError]; in either case the store is left as it was. *)
Theorem cli_join_fails int argv d uuid8 now :
  nth_error argv 1 = Some "join" ->
  store (main int argv d uuid8 now) = d /\
  ((nth_error argv 2 = None \/ nth_error argv 3 = None) ->
   main int argv d uuid8 now = mkRun [] (Uncaught IndexError) d) /\
  (forall room_id user,
      nth_error argv 2 = Some room_id ->
      nth_error argv 3 = Some user ->
      main int argv d uuid8 now =
      mkRun [String.append "Failed to join room " room_id] (Exit 0) d).
Proof.
  intros Hcmd. unfold main.
  rewrite (nth_error_length_lt _ _ _ Hcmd), Hcmd. cbn -[nth_error].
  destruct (nth_error argv 2) as [room_id|] eqn:H2;
    destruct (nth_error argv 3) as [user|] eqn:H3; cbn -[nth_error];
    (split; [reflexivity|]); (split; [|intros r u E2 E3; try discriminate]).
  - intros [?|?]; discriminate.
  - now injection E2 as <-.
  - reflexivity.
  - reflexivity.
  - reflexivity.
Qed.

Lemma cli_join_fails_witness :
  let argv := ["meet_server.py"; "join"; "1a2b3c4d"; "bob"] in
  let d := mkDB [mkRoomRow "1a2b3c4d" "Standup" "alice" 5 active 1000 None ""] [] in
  nth_error argv 1 = Some "join" /\
  main (fun _ => None) argv d "p0000001" 2000 =
  mkRun ["Failed to join room 1a2b3c4d"] (Exit 0) d.
Proof.
  intros argv d. split; [reflexivity|].
  exact (proj2 (proj2 (cli_join_fails (fun _ => None) argv d "p0000001" 2000 eq_refl))
           "1a2b3c4d" "bob" eq_refl eq_refl).
Defined.

(** For the same reason the [rooms] command prints nothing, whatever rooms
    the store holds. *)
Theorem cli_rooms_prints_nothing int argv d uuid8 now :
  nth_error argv 1 = Some "rooms" ->
  main int argv d uuid8 now = mkRun [] (Exit 0) d.
Proof.
  intros Hcmd. unfold main.
  rewrite (nth_error_length_lt _ _ _ Hcmd), Hcmd. reflexivity.
Qed.

Lemma cli_rooms_prints_nothing_witness :
  let argv := ["meet_server.py"; "rooms"] in
  let d := mkDB [mkRoomRow "1a2b3c4d" "Standup" "alice" 5 active 1000 None ""] [] in
  nth_error argv 1 = Some "rooms" /\
  main (fun _ => None) argv d "p0000001" 2000 = mkRun [] (Exit 0) d.
Proof.
  intros argv d. split; [reflexivity|].
  exact (cli_rooms_prints_nothing (fun _ => None) argv d "p0000001" 2000 eq_refl).
Defined.

(** Only the [create] command writes to the store: with no command, with
    [rooms], [join] or any other word, the database is the same after the
    run, however the run ends. *)
Theorem cli_store_only_create int argv d uuid8 now :
  nth_error argv 1 <> Some "create" ->
  store (main int argv d uuid8 now) = d.
Proof.
  intros Hcmd. unfold main.
  destruct (length argv <? 2)%nat; [reflexivity|].
  destruct (nth_error argv 1) as [cmd|]; [|reflexivity].
  destruct (String.eqb_spec cmd "create") as [->|_]; [congruence|].
  destruct (String.eqb cmd "rooms"); [reflexivity|].
  destruct (String.eqb cmd "join"); [|reflexivity].
  destruct (nth_error argv 2); [|reflexivity].
  destruct (nth_error argv 3); reflexivity.
Qed.

Lemma cli_store_only_create_witness :
  let d := mkDB [mkRoomRow "1a2b3c4d" "Standup" "alice" 5 active 1000 None ""] [] in
  nth_error ["meet_server.py"; "end"; "1a2b3c4d"] 1 <> Some "create" /\
  store (main (fun _ => None) ["meet_server.py"; "end"; "1a2b3c4d"] d "p0000001" 2000)
    = d /\
  nth_error ["meet_server.py"] 1 <> Some "create" /\
  main (fun _ => None) ["meet_server.py"] d "p0000001" 2000 =
  mkRun ["Usage: python meet_server.py <command> [args]"] (Exit 1) d.
Proof.
  intros d.
  assert (H1 : nth_error ["meet_server.py"; "end"; "1a2b3c4d"] 1 <> Some "create")
    by (simpl; discriminate).
  assert (H2 : nth_error ["meet_server.py"] 1 <> Some "create")
    by (simpl; discriminate).
  split; [exact H1|]. split.
  - exact (cli_store_only_create (fun _ => None) _ d "p0000001" 2000 H1).
  - split; [exact H2 | reflexivity].
Defined.

Lemma parse_max_size_absent int argv :
  list_in "--max" argv = false -> parse_max_size int argv = inr 50.
Proof.
  unfold parse_max_size. now intros ->.
Qed.

Lemma list_index_first x pre post :
  ~ In x pre -> list_index x (pre ++ x :: post) = Some (length pre).
Proof.
  induction pre as [|y pre IH]; simpl; intros H.
  - now rewrite String.eqb_refl.
  - destruct (String.eqb_spec y x) as [->|_]; [tauto|].
    rewrite IH; tauto.
Qed.

(** The [create] command with a name and a host.  The capacity is 50 when
    ['--max'] occurs nowhere on the command line, and otherwise whatever
    integer [int] reads from the word after the first ['--max'], with no
    check on it.  When that capacity does not fit a signed 64-bit integer the
    run dies of [OverflowError]; when it fits and the identifier drawn has a
    row in the store, the run dies of [IntegrityError]; in both cases nothing
    is printed and the store is as it was.  Otherwise the run prints the
    identifier and the join URL and adds the room's row to the [rooms]
    table. *)
Theorem cli_create int argv d uuid8 now name host pre text post max_size :
  nth_error argv 1 = Some "create" ->
  nth_error argv 2 = Some name ->
  nth_error argv 3 = Some host ->
  (~ In "--max" argv /\ max_size = 50) \/
  (argv = pre ++ "--max" :: text :: post /\ ~ In "--max" pre /\
   int text = Some max_size) ->
  (in_int64 max_size = true ->
   ~ In uuid8 (map rr_id (t_rooms d)) ->
   main int argv d uuid8 now =
   mkRun [String.append "Room created: " uuid8;
          String.append "Join URL: https://meet.blackroad.io/r/" uuid8]
         (Exit 0)
         (mkDB (t_rooms d ++ [mkRoomRow uuid8 name host max_size active now None ""])
               (t_participants d))) /\
  (in_int64 max_size = true ->
   In uuid8 (map rr_id (t_rooms d)) ->
   main int argv d uuid8 now = mkRun [] (Uncaught (Server IntegrityError)) d) /\
  (in_int64 max_size = false ->
   main int argv d uuid8 now = mkRun [] (Uncaught (Server OverflowError)) d).
Proof.
  intros Hcmd Hname Hhost Hmax.
  assert (Hp : parse_max_size int argv = inr max_size).
  { destruct Hmax as [[Hno ->]|(-> & Hpre & Hint)].
    - apply parse_max_size_absent.
      destruct (list_in "--max" argv) eqn:E; auto.
      apply list_in_In in E. contradiction.
    - unfold parse_max_size.
      assert (Hin : list_in "--max" (pre ++ "--max" :: text :: post) = true).
      { apply list_in_In. apply in_or_app. right. now left. }
      rewrite Hin, (list_index_first _ _ _ Hpre).
      replace (length pre + 1)%nat with (S (length pre)) by lia.
      rewrite nth_error_app2 by lia.
      replace (S (length pre) - length pre)%nat with 1%nat by lia.
      simpl. now rewrite Hint. }
  unfold main.
  rewrite (nth_error_length_lt _ _ _ Hcmd), Hcmd. cbn -[nth_error parse_max_size].
  rewrite Hname, Hhost, Hp. unfold create_room, insert_room.
  cbn [rr_max_size rr_id db init t_rooms t_participants rooms participants].
  split; [|split].
  - intros Hm Hid. rewrite Hm. cbn [negb].
    assert (E : existsb (fun r => String.eqb (rr_id r) uuid8) (t_rooms d) = false).
    { destruct (existsb _ _) eqn:E; auto. now apply existsb_rr_id in E. }
    now rewrite E.
  - intros Hm Hid. rewrite Hm. cbn [negb].
    apply existsb_rr_id in Hid. rewrite Hid. now destruct d.
  - intros Hm. rewrite Hm. now destruct d.
Qed.

Lemma cli_create_witness :
  let int := fun text =>
               if String.eqb text "-3" then Some (-3)
               else if String.eqb text "9223372036854775808" then Some (2 ^ 63)
               else None in
  let argv := ["meet_server.py"; "create"; "Standup"; "alice"; "--max"; "-3"] in
  let big := ["meet_server.py"; "create"; "Standup"; "alice"; "--max";
              "9223372036854775808"] in
  let d := mkDB [mkRoomRow "0000aaaa" "Old" "zed" 2 ended 10 (Some 20) ""] [] in
  nth_error argv 1 = Some "create" /\
  argv = ["meet_server.py"; "create"; "Standup"; "alice"] ++ "--max" :: "-3" :: [] /\
  in_int64 (-3) = true /\
  ~ In "1a2b3c4d" (map rr_id (t_rooms d)) /\
  main int argv d "1a2b3c4d" 1000 =
  mkRun ["Room created: 1a2b3c4d";
         "Join URL: https://meet.blackroad.io/r/1a2b3c4d"]
        (Exit 0)
        (mkDB [mkRoomRow "0000aaaa" "Old" "zed" 2 ended 10 (Some 20) "";
               mkRoomRow "1a2b3c4d" "Standup" "alice" (-3) active 1000 None ""] []) /\
  In "0000aaaa" (map rr_id (t_rooms d)) /\
  main int argv d "0000aaaa" 1000 = mkRun [] (Uncaught (Server IntegrityError)) d /\
  in_int64 (2 ^ 63) = false /\
  main int big d "1a2b3c4d" 1000 = mkRun [] (Uncaught (Server OverflowError)) d.
Proof.
  intros int argv big d.
  assert (Hpre : ~ In "--max" ["meet_server.py"; "create"; "Standup"; "alice"]).
  { simpl. intros [H|[H|[H|[H|[]]]]]; discriminate. }
  assert (Hfresh : ~ In "1a2b3c4d" (map rr_id (t_rooms d))).
  { simpl. intros [H|[]]. discriminate. }
  assert (Hold : In "0000aaaa" (map rr_id (t_rooms d))) by (simpl; auto).
  split; [reflexivity|]. split; [reflexivity|]. split; [reflexivity|].
  split; [exact Hfresh|].
  split.
  - exact (proj1 (cli_create int argv d "1a2b3c4d" 1000 "Standup" "alice"
                    ["meet_server.py"; "create"; "Standup"; "alice"] "-3" [] (-3)
                    eq_refl eq_refl eq_refl
                    (or_intror (conj eq_refl (conj Hpre eq_refl)))) eq_refl Hfresh).
  - split; [exact Hold|]. split.
    + exact (proj1 (proj2 (cli_create int argv d "0000aaaa" 1000 "Standup" "alice"
                      ["meet_server.py"; "create"; "Standup"; "alice"] "-3" [] (-3)
                      eq_refl eq_refl eq_refl
                      (or_intror (conj eq_refl (conj Hpre eq_refl))))) eq_refl Hold).
    + split; [reflexivity|].
      exact (proj2 (proj2 (cli_create int big d "1a2b3c4d" 1000 "Standup" "alice"
                      ["meet_server.py"; "create"; "Standup"; "alice"]
                      "9223372036854775808" [] (2 ^ 63)
                      eq_refl eq_refl eq_refl
                      (or_intror (conj eq_refl (conj Hpre eq_refl))))) eq_refl).
Defined.
